(** * bedrock/contentful/api.py: the Contentful page adapter

    A shallow embedding of the module that flattens Contentful entries
    into template-ready dictionaries, and the properties its
    specification states about it.

    Python values are modelled by a small dynamic universe [val];
    exceptions by the [result] type; calls to the CMS client and to the
    rich-text renderer are recorded in an event trace, so that "no fetch
    happens" and "the renderer is not invoked" are statements about the
    trace.  Floating-point arithmetic is IEEE binary64 as specified by
    the Standard Library's [SpecFloat]. *)

From Stdlib Require Import ZArith Lia SpecFloat.
From stdpp Require Import base strings pretty list gmap.

Local Open Scope string_scope.
Local Open Scope list_scope.

(** ** Exceptions and results *)

Inductive exn :=
| TypeError
| KeyError (key : string)
| AttributeError
| OverflowError
| ValueError
| EntryNotFound (id : string).

Inductive result (A : Type) :=
| Ok (a : A)
| Raise (e : exn).
Arguments Ok {A} a.
Arguments Raise {A} e.

Definition result_bind {A B} (f : A → result B) (r : result A) : result B :=
  match r with
  | Ok a => f a
  | Raise e => Raise e
  end.

#[global] Instance result_ret : MRet result := λ A a, Ok a.
#[global] Instance result_mbind : MBind result := λ A B f r, result_bind f r.

(** ** Python numbers: unbounded integers and binary64 floats *)

Inductive num :=
| NInt (n : Z)
| NFloat (f : spec_float).

Definition prec : Z := 53.
Definition emax : Z := 1024.

(** [float(n)] for an integer: the nearest double, ties to even. *)
Definition SF_of_Z (n : Z) : spec_float := binary_normalize prec emax n 0 false.

(** The implicit conversion of an [int] operand raises when the integer
    is too large for a double. *)
Definition int_to_float (n : Z) : result spec_float :=
  match SF_of_Z n with
  | S754_infinity _ => Raise OverflowError
  | f => Ok f
  end.

(** A decimal literal [p/q] denotes the double nearest to it, which is
    what the correctly rounded quotient of two exact doubles gives. *)
Definition float_lit (p q : Z) : spec_float :=
  SFdiv prec emax (SF_of_Z p) (SF_of_Z q).

(** [a * b] *)
Definition py_mul (a b : num) : result num :=
  match a, b with
  | NInt x, NInt y => Ok (NInt (x * y))
  | NInt x, NFloat g => f ← int_to_float x; Ok (NFloat (SFmul prec emax f g))
  | NFloat f, NInt y => g ← int_to_float y; Ok (NFloat (SFmul prec emax f g))
  | NFloat f, NFloat g => Ok (NFloat (SFmul prec emax f g))
  end.

(** Nearest integer of [m / 2^k], ties to even, for [0 <= m]. *)
Definition round_half_even_shift (m : Z) (k : Z) : Z :=
  let q := Z.shiftr m k in
  let r := (m - Z.shiftl q k)%Z in
  match (2 * r ?= Z.shiftl 1 k)%Z with
  | Lt => q
  | Gt => (q + 1)%Z
  | Eq => if Z.even q then q else (q + 1)%Z
  end.

(** [round(x)] with one argument returns an [int]. *)
Definition py_round (x : num) : result Z :=
  match x with
  | NInt n => Ok n
  | NFloat (S754_zero _) => Ok 0%Z
  | NFloat (S754_infinity _) => Raise OverflowError
  | NFloat S754_nan => Raise ValueError
  | NFloat (S754_finite s m e) =>
      let a := if (0 <=? e)%Z then Z.shiftl (Z.pos m) e
               else round_half_even_shift (Z.pos m) (- e) in
      Ok (if s then (- a)%Z else a)
  end.

(** Numeric equality [a == b]; Python compares an [int] with a [float]
    by exact value, without converting the integer. *)
Definition float_int_eqb (f : spec_float) (x : Z) : bool :=
  match f with
  | S754_zero _ => (x =? 0)%Z
  | S754_finite s m e =>
      let sign a := if s then (- a)%Z else a in
      if (0 <=? e)%Z then (x =? sign (Z.shiftl (Z.pos m) e))%Z
      else (Z.land (Z.pos m) (Z.ones (- e)) =? 0)%Z
           && (x =? sign (Z.shiftr (Z.pos m) (- e)))%Z
  | _ => false
  end.

Definition num_eqb (a b : num) : bool :=
  match a, b with
  | NInt x, NInt y => (x =? y)%Z
  | NInt x, NFloat g => float_int_eqb g x
  | NFloat f, NInt y => float_int_eqb f y
  | NFloat f, NFloat g => SFeqb f g
  end.

(** ** Python values

    Field values of CMS resources and the dictionaries handed to the
    templates.  A dictionary keeps its insertion order, which
    [fields.items()] exposes, so it is an association list. *)

#[local] Set Warnings "-register-all".

Inductive val :=
| VNone
| VBool (b : bool)
| VInt (n : Z)
| VStr (s : string)
| VList (l : list val)
| VDict (d : list (string * val))
| VLink (id : string)
| VAsset (id : string) (fields : list (string * val))
| VEntry (id : string) (content_type : string) (fields : list (string * val)).

Abbreviation dict := (list (string * val)).

(** [bool(v)] *)
Definition py_truthy (v : val) : bool :=
  match v with
  | VNone => false
  | VBool b => b
  | VInt n => negb (n =? 0)%Z
  | VStr s => negb (String.eqb s "")
  | VList l => match l with [] => false | _ => true end
  | VDict d => match d with [] => false | _ => true end
  | VLink _ | VAsset _ _ | VEntry _ _ _ => true
  end.

(** [v == 'literal'] *)
Definition val_eq_str (v : val) (t : string) : bool :=
  match v with
  | VStr s => String.eqb s t
  | _ => false
  end.

Fixpoint dict_lookup (d : dict) (k : string) : option val :=
  match d with
  | [] => None
  | (k', v) :: d' => if String.eqb k' k then Some v else dict_lookup d' k
  end.

(** [k in d] *)
Definition dict_mem (k : string) (d : dict) : bool :=
  match dict_lookup d k with Some _ => true | None => false end.

(** [d.get(k)] and [d.get(k, dflt)] *)
Definition dict_get (d : dict) (k : string) : val := default VNone (dict_lookup d k).
Definition dict_get_or (d : dict) (k : string) (dflt : val) : val :=
  default dflt (dict_lookup d k).

(** [d[k]] *)
Definition dict_getitem (d : dict) (k : string) : result val :=
  match dict_lookup d k with
  | Some v => Ok v
  | None => Raise (KeyError k)
  end.

(** [d[k] = v]: an existing key keeps its position, a new one goes last. *)
Fixpoint dict_set (d : dict) (k : string) (v : val) : dict :=
  match d with
  | [] => [(k, v)]
  | (k', v') :: d' =>
      if String.eqb k' k then (k', v) :: d' else (k', v') :: dict_set d' k v
  end.

Definition dict_keys (d : dict) : list string := d.*1.

(** [v[k]] for a string key [k], on an arbitrary value. *)
Definition val_getitem (v : val) (k : string) : result val :=
  match v with
  | VDict d => dict_getitem d k
  | _ => Raise TypeError
  end.

(** [v.get(k)] on an arbitrary value. *)
Definition val_get (v : val) (k : string) : result val :=
  match v with
  | VDict d => Ok (dict_get d k)
  | _ => Raise AttributeError
  end.

(** [v.items()] *)
Definition val_items (v : val) : result (list (string * val)) :=
  match v with
  | VDict d => Ok d
  | _ => Raise AttributeError
  end.

(** [v.fields()], a method of entries and assets. *)
Definition val_fields (v : val) : result dict :=
  match v with
  | VEntry _ _ f | VAsset _ f => Ok f
  | _ => Raise AttributeError
  end.

(** [v.id], an attribute of entries, assets and unresolved links. *)
Definition val_id (v : val) : result string :=
  match v with
  | VEntry i _ _ | VAsset i _ | VLink i => Ok i
  | _ => Raise AttributeError
  end.

(** [v.sys.get('content_type').id]: only entries have a content type. *)
Definition val_content_type_id (v : val) : result string :=
  match v with
  | VEntry _ ct _ => Ok ct
  | _ => Raise AttributeError
  end.

(** ['prefix' + v] *)
Definition py_str_add (prefix : string) (v : val) : result string :=
  match v with
  | VStr s => Ok (prefix +:+ s)
  | _ => Raise TypeError
  end.

Fixpoint string_chars (s : string) : list val :=
  match s with
  | EmptyString => []
  | String c s' => VStr (String c EmptyString) :: string_chars s'
  end.

(** The items a [for] loop over [v] visits. *)
Definition py_iter (v : val) : result (list val) :=
  match v with
  | VList l => Ok l
  | VStr s => Ok (string_chars s)
  | VDict d => Ok (VStr <$> dict_keys d)
  | _ => Raise TypeError
  end.

(** [TABLE.get(key, dflt)] on a module-level table with string keys:
    lists and dictionaries are unhashable, any other non-string key is
    simply not found. *)
Definition table_get {A} (t : gmap string A) (key : val) (dflt : A) : result A :=
  match key with
  | VStr s => Ok (default dflt (t !! s))
  | VList _ | VDict _ => Raise TypeError
  | _ => Ok dflt
  end.

(** ** Module-level tables *)

Definition LOCALE_MAP : gmap string string :=
  list_to_map [("de", "de-DE")].

Definition ASPECT_RATIOS : gmap string string :=
  list_to_map [("1:1", "1-1"); ("3:2", "3-2"); ("16:9", "16-9")].

Definition ASPECT_MULTIPLIER : gmap string num :=
  list_to_map [("1:1", NInt 1);
               ("3:2", NFloat (float_lit 6666 10000));
               ("16:9", NFloat (float_lit 5625 10000))].

Definition PRODUCT_THEMES : gmap string string :=
  list_to_map [("Firefox", "firefox");
               ("Firefox Beta", "beta");
               ("Firefox Developer", "developer");
               ("Firefox Nightly", "nightly")].

Definition WIDTHS : gmap string string :=
  list_to_map [("Extra Small", "xs");
               ("Small", "sm");
               ("Medium", "md");
               ("Large", "lg");
               ("Extra Large", "xl")].

Definition LAYOUT_CLASS : gmap string string :=
  list_to_map [("layout2Cards", "mzp-l-card-half");
               ("layout3Cards", "mzp-l-card-third");
               ("layout4Cards", "mzp-l-card-quarter");
               ("layout5Cards", "mzp-l-card-hero")].

(** ** Module-level helpers *)

Definition contentful_locale (locale : string) : string :=
  if String.prefix "es-" locale then "es"
  else default locale (LOCALE_MAP !! locale).

Definition _get_height (width : Z) (aspect : val) : result Z :=
  m ← table_get ASPECT_MULTIPLIER aspect (NInt 0);
  p ← py_mul (NInt width) m;
  py_round p.

Definition _get_product_class (product : val) : result string :=
  slug ← table_get PRODUCT_THEMES product "";
  Ok ("mzp-t-product-" +:+ slug).

Definition _get_layout_class (layout : val) : result string :=
  table_get LAYOUT_CLASS layout "".

Definition _get_abbr_from_width (width : val) : result string :=
  table_get WIDTHS width "".

Definition _get_aspect_ratio_class (aspect_ratio : val) : result string :=
  slug ← table_get ASPECT_RATIOS aspect_ratio "";
  Ok ("mzp-has-aspect-" +:+ slug).

Definition _get_width_class (width : val) : result string :=
  width_abbr ← _get_abbr_from_width width;
  Ok ("mzp-t-content-" +:+ width_abbr).

Definition _get_theme_class (theme : val) : string :=
  if val_eq_str theme "Dark" then "mzp-t-dark" else "".

(** ** The CMS client, the renderer and the event trace *)

Record Entry := {
  entry_id : string;
  entry_content_type : string;
  entry_fields : dict;
}.

(** What the module asks of its collaborators: a listing or a fetch on
    the CMS client (with the [include] depth when one is given), and a
    rendering of a rich-text value. *)
Inductive event :=
| EvEntries (content_type : string)
| EvEntry (id : string) (include : option Z)
| EvRender (doc : val).

(** A computation yields a value or raises, and leaves the events it
    caused, oldest first. *)
Definition M (A : Type) : Type := result A * list event.

Definition M_bind {A B} (f : A → M B) (m : M A) : M B :=
  match m.1 with
  | Ok a => let n := f a in (n.1, m.2 ++ n.2)
  | Raise e => (Raise e, m.2)
  end.

#[global] Instance M_ret : MRet M := λ A a, (Ok a, []).
#[global] Instance M_mbind : MBind M := λ A B f m, M_bind f m.

Definition lift {A} (r : result A) : M A := (r, []).
Definition emit (e : event) : M unit := (Ok (), [e]).

(** [for x in l: s = body(s, x)] *)
Fixpoint for_each {A S} (body : S → A → M S) (l : list A) (s : S) : M S :=
  match l with
  | [] => mret s
  | x :: l' => s' ← body s x; for_each body l' s'
  end.

(** [[f(x) for x in l]] *)
Fixpoint list_comp {A B} (f : A → M B) (l : list A) : M (list B) :=
  match l with
  | [] => mret []
  | x :: l' => y ← f x; ys ← list_comp f l'; mret (y :: ys)
  end.

(** A [ContentfulPage] instance: the client built by [get_client]
    ([None] when no space id is configured) over the entries of the
    space, and the rich-text renderer. *)
Record ContentfulPage := {
  client : option (list Entry);
  renderer : val → result string;
}.

(** [self.client.entries({'content_type': ct})] *)
Definition client_entries (self : ContentfulPage) (ct : string) : M (list Entry) :=
  match client self with
  | None => lift (Raise AttributeError)
  | Some space =>
      _ ← emit (EvEntries ct);
      mret (filter (λ e, entry_content_type e = ct) space)
  end.

(** [self.client.entry(id)] and [self.client.entry(id, {'include': n})] *)
Definition client_entry (self : ContentfulPage) (id : string) (include : option Z)
  : M Entry :=
  match client self with
  | None => lift (Raise AttributeError)
  | Some space =>
      _ ← emit (EvEntry id include);
      match head (filter (λ e, entry_id e = id) space) with
      | Some e => mret e
      | None => lift (Raise (EntryNotFound id))
      end
  end.

(** [self.renderer.render(v)] *)
Definition render (self : ContentfulPage) (v : val) : M string :=
  _ ← emit (EvRender v);
  lift (renderer self v).

Section ContentfulPage.

(** [image.url(w=…, h=…, fit=…, f=…)] of the SDK's asset objects, on the
    asset's fields. *)
Variable asset_url : dict → Z → Z → string → string → result string.

Definition _get_image_url (image : val) (width : Z) (aspect : val) : result string :=
  match image with
  | VAsset _ fields =>
      h ← _get_height width aspect;
      u ← asset_url fields width h "fill" "faces";
      Ok ("https:" +:+ u)
  | _ => Raise AttributeError
  end.

Variable self : ContentfulPage.

Definition get_info_data (fields : dict) : result dict :=
  title ← dict_getitem fields "preview_title";
  blurb ← dict_getitem fields "preview_blurb";
  let info_data :=
    [("title", title); ("blurb", blurb);
     ("slug", dict_get_or fields "slug" (VStr "home"))] in
  if dict_mem "preview_image" fields then
    image ← dict_getitem fields "preview_image";
    image_fields ← val_fields image;
    preview_image_url ← val_get (dict_get image_fields "file") "url";
    image ← py_str_add "https:" preview_image_url;
    Ok (dict_set info_data "image" (VStr image))
  else Ok info_data.

Definition get_page_data (page_id : string) : M dict :=
  page ← client_entry self page_id (Some 5%Z);
  let fields := entry_fields page in
  info ← lift (get_info_data fields);
  mret [("page_type", VStr (entry_content_type page));
        ("info", VDict info);
        ("fields", VDict fields)].

Definition get_all_page_data : M (list dict) :=
  pages ← client_entries self "pageVersatile";
  list_comp (λ p, get_page_data (entry_id p)) pages.

Definition get_entry_data (page_id : string) : M Entry :=
  client_entry self page_id None.

Definition get_page_type (page_id : string) : M string :=
  page_obj ← client_entry self page_id None;
  mret (entry_content_type page_obj).

Definition get_entry_by_id (entry_id : string) : M Entry :=
  client_entry self entry_id None.

Definition get_cta_data (cta : val) : M dict :=
  if py_truthy cta then
    cta_id ← lift (val_id cta);
    cta_obj ← get_entry_by_id cta_id;
    let cta_fields := entry_fields cta_obj in
    mret [("component", VStr (entry_content_type cta_obj));
          ("label", dict_get cta_fields "label");
          ("action", dict_get cta_fields "action");
          ("size", VStr "mzp-t-xl");
          ("theme", VStr "mzp-t-primary");
          ("include_cta", VBool true)]
  else mret [("include_cta", VBool false)].

Definition get_text_data (value : val) : M dict :=
  body ← render self value;
  width_class ← lift (_get_width_class (VStr "Medium"));
  mret [("component", VStr "text");
        ("body", VStr body);
        ("width_class", VStr width_class)].

Definition get_hero_data (hero_id : string) : M dict :=
  hero_obj ← get_entry_by_id hero_id;
  let fields := entry_fields hero_obj in
  image ← lift (dict_getitem fields "image");
  image_fields ← lift (val_fields image);
  hero_image_url ← lift (val_get (dict_get image_fields "file") "url");
  let hero_reverse := dict_get fields "image_position" in
  hero_body ← render self (dict_get fields "body");
  product_class ← lift (_get_product_class (dict_get fields "product_icon"));
  image ← lift (py_str_add "https:" hero_image_url);
  cta ← get_cta_data (dict_get fields "cta");
  mret [("component", VStr "hero");
        ("theme_class", VStr (_get_theme_class (dict_get fields "theme")));
        ("product_class", VStr product_class);
        ("title", dict_get fields "heading");
        ("tagline", dict_get fields "tagline");
        ("body", VStr hero_body);
        ("image", VStr image);
        ("image_position", dict_get fields "image_position");
        ("image_class", VStr (if val_eq_str hero_reverse "Left" then "mzp-l-reverse" else ""));
        ("cta", VDict cta)].

Definition get_section_heading_data (heading_id : string) : M dict :=
  heading_obj ← get_entry_by_id heading_id;
  let fields := entry_fields heading_obj in
  mret [("component", VStr "sectionHeading");
        ("heading", dict_get fields "heading")].

(** [self.renderer.render(fields.get('body')) if fields.get('body') else ''] *)
Definition render_body_if_present (fields : dict) : M string :=
  if py_truthy (dict_get fields "body") then render self (dict_get fields "body")
  else mret "".

Definition get_callout_data (callout_id : string) : M dict :=
  config_obj ← get_entry_by_id callout_id;
  let config_fields := entry_fields config_obj in
  content_id ← lift (val_id (dict_get config_fields "component_callout"));
  content_obj ← get_entry_by_id content_id;
  let content_fields := entry_fields content_obj in
  content_body ← render_body_if_present content_fields;
  product_class ← lift (_get_product_class (dict_get content_fields "product_icon"));
  cta ← get_cta_data (dict_get content_fields "cta");
  mret [("component", VStr "callout");
        ("theme_class", VStr (_get_theme_class (dict_get config_fields "theme")));
        ("product_class", VStr product_class);
        ("title", dict_get content_fields "heading");
        ("body", VStr content_body);
        ("cta", VDict cta)].

Definition get_card_data (card_id : string) (aspect_ratio : val) : M dict :=
  card_obj ← get_entry_by_id card_id;
  let card_fields := entry_fields card_obj in
  card_body ← render_body_if_present card_fields;
  let card_image := dict_get card_fields "image" in
  highres_image_url ← lift (_get_image_url card_image 800 aspect_ratio);
  image_url ← lift (_get_image_url card_image 800 aspect_ratio);
  aspect_class ← lift (_get_aspect_ratio_class aspect_ratio);
  mret [("component", VStr "card");
        ("heading", dict_get card_fields "heading");
        ("tag", dict_get card_fields "tag");
        ("link", dict_get card_fields "link");
        ("body", VStr card_body);
        ("aspect_ratio", VStr aspect_class);
        ("highres_image_url", VStr highres_image_url);
        ("image_url", VStr image_url)].

Definition get_large_card_data (card_layout_id card_id : string) : M dict :=
  large_card_layout ← get_entry_by_id card_layout_id;
  let large_card_fields := entry_fields large_card_layout in
  let large_card_image := dict_get large_card_fields "image" in
  highres_image_url ← lift (_get_image_url large_card_image 1860 (VStr "16:9"));
  image_url ← lift (_get_image_url large_card_image 1860 (VStr "16:9"));
  card_data ← get_card_data card_id (VStr "16:9");
  let card_data := dict_set card_data "component" (VStr "large_card") in
  let card_data := dict_set card_data "highres_image_url" (VStr highres_image_url) in
  let card_data := dict_set card_data "image_url" (VStr image_url) in
  mret card_data.

(** [card_layout_data.get('cards').append(x)]: the list stored under
    ['cards'] is mutated in place, so the dictionary sees the new item. *)
Definition cards_append (card_layout_data : dict) (x : val) : result dict :=
  match dict_get card_layout_data "cards" with
  | VList l => Ok (dict_set card_layout_data "cards" (VList (l ++ [x])))
  | _ => Raise AttributeError
  end.

Definition get_card_layout_data (layout_id : string) : M dict :=
  config_obj ← get_entry_by_id layout_id;
  let config_fields := entry_fields config_obj in
  let aspect_ratio := dict_get config_fields "aspect_ratio" in
  let layout := entry_content_type config_obj in
  layout_class ← lift (_get_layout_class (VStr layout));
  let card_layout_data :=
    [("component", VStr "cardLayout");
     ("layout_class", VStr layout_class);
     ("aspect_ratio", aspect_ratio);
     ("cards", VList [])] in
  card_layout_data ←
    (if String.eqb layout "layout5Cards" then
       card_layout_id ← lift (val_id (dict_get config_fields "large_card"));
       large_card_fields ← lift (val_fields (dict_get config_fields "large_card"));
       card_id ← lift (val_id (dict_get large_card_fields "card"));
       large_card_data ← get_large_card_data card_layout_id card_id;
       lift (cards_append card_layout_data (VDict large_card_data))
     else mret card_layout_data);
  cards ← lift (py_iter (dict_get config_fields "content"));
  for_each (λ card_layout_data card,
      card_id ← lift (val_id card);
      card_data ← get_card_data card_id aspect_ratio;
      lift (cards_append card_layout_data (VDict card_data)))
    cards card_layout_data.

(** The statements of [get_content] after its first three lines: the
    dispatch on the page type, given the page type and the fields. *)
Definition get_content_entries (page_type : val) (fields : val) : M (list val) :=
  if val_eq_str page_type "pageGeneral" then
    items ← lift (val_items fields);
    for_each (λ entries '(key, value),
        if String.eqb key "component_hero" then
          id ← lift (val_id value);
          d ← get_hero_data id; mret (entries ++ [VDict d])
        else if String.eqb key "body" then
          d ← get_text_data value; mret (entries ++ [VDict d])
        else if String.eqb key "layout_callout" then
          id ← lift (val_id value);
          d ← get_callout_data id; mret (entries ++ [VDict d])
        else mret entries)
      items []
  else if val_eq_str page_type "pageVersatile" then
    content ← lift (val_get fields "content");
    items ← lift (py_iter content);
    for_each (λ entries item,
        content_type ← lift (val_content_type_id item);
        if String.eqb content_type "componentHero" then
          id ← lift (val_id item);
          d ← get_hero_data id; mret (entries ++ [VDict d])
        else if String.eqb content_type "layoutCallout" then
          id ← lift (val_id item);
          d ← get_callout_data id; mret (entries ++ [VDict d])
        else mret entries)
      items []
  else if val_eq_str page_type "pageHome" then
    content ← lift (val_get fields "content");
    items ← lift (py_iter content);
    for_each (λ entries item,
        content_type ← lift (val_content_type_id item);
        if String.eqb content_type "componentHero" then
          id ← lift (val_id item);
          d ← get_hero_data id; mret (entries ++ [VDict d])
        else if String.eqb content_type "componentSectionHeading" then
          id ← lift (val_id item);
          d ← get_section_heading_data id; mret (entries ++ [VDict d])
        else if String.eqb content_type "layoutCallout" then
          id ← lift (val_id item);
          d ← get_callout_data id; mret (entries ++ [VDict d])
        else if String.eqb content_type "layout2Cards" then
          id ← lift (val_id item);
          d ← get_card_layout_data id; mret (entries ++ [VDict d])
        else if String.eqb content_type "layout3Cards" then
          id ← lift (val_id item);
          d ← get_card_layout_data id; mret (entries ++ [VDict d])
        else if String.eqb content_type "layout5Cards" then
          id ← lift (val_id item);
          d ← get_card_layout_data id; mret (entries ++ [VDict d])
        else mret entries)
      items []
  else mret [].

(** [get_content].  Its second statement subscripts the page id, a
    string, with ['page_type']. *)
Definition get_content (page_id : string) : M dict :=
  page_data ← get_page_data page_id;
  page_type ← lift (val_getitem (VStr page_id) "page_type");
  fields ← lift (dict_getitem page_data "fields");
  entries ← get_content_entries page_type fields;
  info ← lift (dict_getitem page_data "info");
  mret [("page_type", page_type); ("info", info); ("entries", VList entries)].

End ContentfulPage.

(** ** A sample space

    A home page with a hero and a three-card layout, a five-card layout
    with its large card, a callout and a call to action; an asset method
    and a renderer in the manner of the SDK's. *)

Definition demo_asset_url (fields : dict) (w h : Z) (fit f : string) : result string :=
  url ← val_get (dict_get fields "file") "url";
  match url with
  | VStr u =>
      Ok (u +:+ "?w=" +:+ pretty w +:+ "&h=" +:+ pretty h
            +:+ "&fit=" +:+ fit +:+ "&f=" +:+ f)
  | _ => Raise TypeError
  end.

(** A rich-text document is a dictionary; anything else, [None]
    included, cannot be subscripted by the renderer. *)
Definition demo_renderer (doc : val) : result string :=
  match doc with
  | VDict d =>
      match dict_get d "value" with
      | VStr s => Ok ("<p>" +:+ s +:+ "</p>")
      | _ => Ok ""
      end
  | _ => Raise TypeError
  end.

Definition demo_image (id : string) : val :=
  VAsset id [("title", VStr id);
             ("file", VDict [("url", VStr ("//images.ctfassets.net/" +:+ id +:+ ".png"))])].

Definition demo_doc (text : string) : val :=
  VDict [("nodeType", VStr "document"); ("value", VStr text)].

Definition demo_card (id : string) (body : list (string * val)) : Entry :=
  {| entry_id := id; entry_content_type := "componentCard";
     entry_fields := [("heading", VStr id); ("tag", VStr "Article");
                      ("link", VStr ("/" +:+ id))] ++ body
                     ++ [("image", demo_image (id +:+ "-img"))] |}.

Definition demo_five : Entry :=
  {| entry_id := "five"; entry_content_type := "layout5Cards";
     entry_fields := [("aspect_ratio", VStr "1:1");
                      ("large_card", VEntry "large1" "componentCardLarge"
                                       [("card", VLink "card1")]);
                      ("content", VList [VLink "card2"; VLink "card3"])] |}.

Definition demo_space : list Entry :=
  [ {| entry_id := "home"; entry_content_type := "pageHome";
       entry_fields := [("preview_title", VStr "Home");
                        ("preview_blurb", VStr "Welcome");
                        ("content", VList [VEntry "hero1" "componentHero" [];
                                           VEntry "three" "layout3Cards" []])] |};
    {| entry_id := "vers"; entry_content_type := "pageVersatile";
       entry_fields := [("preview_title", VStr "Versatile");
                        ("preview_blurb", VStr "A page");
                        ("slug", VStr "versatile");
                        ("content", VList [VEntry "hero1" "componentHero" [];
                                           VEntry "callout1" "layoutCallout" []])] |};
    {| entry_id := "hero1"; entry_content_type := "componentHero";
       entry_fields := [("heading", VStr "Fast"); ("tagline", VStr "For good");
                        ("theme", VStr "Dark"); ("product_icon", VStr "Firefox");
                        ("image_position", VStr "Left");
                        ("body", demo_doc "Browse");
                        ("image", demo_image "hero-img");
                        ("cta", VLink "cta1")] |};
    {| entry_id := "cta1"; entry_content_type := "componentCtaDownload";
       entry_fields := [("label", VStr "Download"); ("action", VStr "/download")] |};
    {| entry_id := "three"; entry_content_type := "layout3Cards";
       entry_fields := [("aspect_ratio", VStr "3:2");
                        ("content", VList [VLink "card1"; VLink "card2"; VLink "card3"])] |};
    demo_card "card1" [("body", demo_doc "One")];
    demo_card "card2" [];
    demo_card "card3" [("body", VNone)];
    demo_five;
    {| entry_id := "large1"; entry_content_type := "componentCardLarge";
       entry_fields := [("card", VLink "card1"); ("image", demo_image "large-img")] |};
    {| entry_id := "callout1"; entry_content_type := "layoutCallout";
       entry_fields := [("theme", VStr "Light");
                        ("component_callout", VLink "calloutc")] |};
    {| entry_id := "calloutc"; entry_content_type := "componentCallout";
       entry_fields := [("heading", VStr "Join"); ("product_icon", VStr "Firefox Beta")] |};
    {| entry_id := "head1"; entry_content_type := "componentSectionHeading";
       entry_fields := [("heading", VStr "More")] |} ].

Definition demo_page : ContentfulPage :=
  {| client := Some demo_space; renderer := demo_renderer |}.

(** ** Reference definitions, in the specification's words *)

(** The multiplier table as the specification gives it. *)
Definition spec_multiplier (aspect : string) : num :=
  if String.eqb aspect "1:1" then NFloat (float_lit 10 10)
  else if String.eqb aspect "3:2" then NFloat (float_lit 6666 10000)
  else if String.eqb aspect "16:9" then NFloat (float_lit 5625 10000)
  else NInt 0.

(** The integer nearest to [n / d], ties to even, for [0 < d]. *)
Definition round_half_even_div (n d : Z) : Z :=
  let q := (n / d)%Z in
  match (2 * (n mod d) ?= d)%Z with
  | Lt => q
  | Gt => (q + 1)%Z
  | Eq => if Z.even q then q else (q + 1)%Z
  end.

(** [round(width * m)] *)
Definition round_mul (width : Z) (m : num) : result Z :=
  p ← py_mul (NInt width) m;
  py_round p.

(** The three assignments of the large card. *)
Definition large_card_overwrite (card_data : dict) (url : string) : dict :=
  dict_set (dict_set (dict_set card_data "component" (VStr "large_card"))
              "highres_image_url" (VStr url))
    "image_url" (VStr url).

(** "Extract as card, then re-derive images at larger size and relabel." *)
Definition large_card_spec (asset_url : dict → Z → Z → string → string → result string)
    (self : ContentfulPage) (card_layout_id card_id : string) : M dict :=
  card_data ← get_card_data asset_url self card_id (VStr "16:9");
  layout ← get_entry_by_id self card_layout_id;
  url ← lift (_get_image_url asset_url (dict_get (entry_fields layout) "image")
                1860 (VStr "16:9"));
  mret (large_card_overwrite card_data url).

(** Two outcomes agree when both raise or both return the same value. *)
Definition same_outcome {A} (r1 r2 : result A) : Prop :=
  match r1, r2 with
  | Ok a, Ok b => a = b
  | Raise _, Raise _ => True
  | _, _ => False
  end.

(** The first binding of a key in an association list. *)
Fixpoint alist_find {A} (k : string) (l : list (string * A)) : option A :=
  match l with
  | [] => None
  | (k', v) :: l' => if String.eqb k' k then Some v else alist_find k l'
  end.

(** Whether an event is a call to the renderer. *)
Definition is_render (ev : event) : bool :=
  match ev with EvRender _ => true | _ => false end.

(** The cards a loop over [items] extracts, each at [aspect_ratio]. *)
Definition cards_of (asset_url : dict → Z → Z → string → string → result string)
    (self : ContentfulPage) (aspect_ratio : val)
    (items : list val) (cards : list dict) : Prop :=
  Forall2 (λ item card, ∃ card_id,
             val_id item = Ok card_id ∧
             (get_card_data asset_url self card_id aspect_ratio).1 = Ok card)
    items cards.

(** The large card of a five-card layout, through the two references
    layout → large-card configuration → card. *)
Definition large_card_of (asset_url : dict → Z → Z → string → string → result string)
    (self : ContentfulPage) (config_fields : dict) (large : dict) : Prop :=
  ∃ card_layout_id large_card_fields card_id,
    val_id (dict_get config_fields "large_card") = Ok card_layout_id ∧
    val_fields (dict_get config_fields "large_card") = Ok large_card_fields ∧
    val_id (dict_get large_card_fields "card") = Ok card_id ∧
    (get_large_card_data asset_url self card_layout_id card_id).1 = Ok large.

(** ** The client factory and the module's instance *)

(** The three settings [get_client] reads. *)
Record Settings := {
  CONTENTFUL_SPACE_ID : string;
  CONTENTFUL_SPACE_KEY : string;
  CONTENTFUL_SPACE_API : string;
}.

(** [get_client()].  [api.Client(space_id, key, environment='V0',
    api_url=…)] is the SDK's; [connect] stands for the entries of the
    space such a client serves. *)
Definition get_client (settings : Settings)
    (connect : string → string → string → string → list Entry)
  : option (list Entry) :=
  if py_truthy (VStr (CONTENTFUL_SPACE_ID settings)) then
    Some (connect (CONTENTFUL_SPACE_ID settings) (CONTENTFUL_SPACE_KEY settings)
            "V0" (CONTENTFUL_SPACE_API settings))
  else None.

(** [contentful_preview_page = ContentfulPage()]: [ContentfulBase.__init__]
    stores [get_client()]; the renderer is the class attribute. *)
Definition contentful_preview_page (settings : Settings)
    (connect : string → string → string → string → list Entry)
    (rich_text_renderer : val → result string) : ContentfulPage :=
  {| client := get_client settings connect; renderer := rich_text_renderer |}.

(** ** Vocabulary for the further properties *)

(** Values that can serve as dictionary keys. *)
Definition hashable (v : val) : bool :=
  match v with
  | VList _ | VDict _ => false
  | _ => true
  end.

(** The entry ids requested one by one, in order. *)
Definition fetched (t : list event) : list string :=
  omap (λ ev, match ev with EvEntry id _ => Some id | _ => None end) t.

(** The values handed to the renderer, in order. *)
Definition rendered (t : list event) : list val :=
  omap (λ ev, match ev with EvRender v => Some v | _ => None end) t.

Definition raises {A} (r : result A) : Prop :=
  match r with
  | Raise _ => True
  | Ok _ => False
  end.

(** The [component] tag of an entry of a page. *)
Definition entry_component (v : val) : option string :=
  match v with
  | VDict d =>
      match dict_lookup d "component" with
      | Some (VStr c) => Some c
      | _ => None
      end
  | _ => None
  end.

(** What one item of the [content] sequence of a home page contributes
    to the entries: the output of its extraction, or nothing. *)
Definition home_component
    (asset_url : dict → Z → Z → string → string → result string)
    (self : ContentfulPage) (item : val) : M (list val) :=
  content_type ← lift (val_content_type_id item);
  if String.eqb content_type "componentHero" then
    id ← lift (val_id item); d ← get_hero_data self id; mret [VDict d]
  else if String.eqb content_type "componentSectionHeading" then
    id ← lift (val_id item); d ← get_section_heading_data self id; mret [VDict d]
  else if String.eqb content_type "layoutCallout" then
    id ← lift (val_id item); d ← get_callout_data self id; mret [VDict d]
  else if String.eqb content_type "layout2Cards"
          || String.eqb content_type "layout3Cards"
          || String.eqb content_type "layout5Cards" then
    id ← lift (val_id item); d ← get_card_layout_data asset_url self id; mret [VDict d]
  else mret [].

(** The same for a versatile page. *)
Definition versatile_component (self : ContentfulPage) (item : val) : M (list val) :=
  content_type ← lift (val_content_type_id item);
  if String.eqb content_type "componentHero" then
    id ← lift (val_id item); d ← get_hero_data self id; mret [VDict d]
  else if String.eqb content_type "layoutCallout" then
    id ← lift (val_id item); d ← get_callout_data self id; mret [VDict d]
  else mret [].

(** The same for one field of a general page. *)
Definition general_component (self : ContentfulPage) (field : string * val)
  : M (list val) :=
  if String.eqb field.1 "component_hero" then
    id ← lift (val_id field.2); d ← get_hero_data self id; mret [VDict d]
  else if String.eqb field.1 "body" then
    d ← get_text_data self field.2; mret [VDict d]
  else if String.eqb field.1 "layout_callout" then
    id ← lift (val_id field.2); d ← get_callout_data self id; mret [VDict d]
  else mret [].

(** * Properties *)

(** ** Tables and style helpers *)

Lemma list_to_map_alist_find {A} (l : list (string * A)) (k : string) :
  (list_to_map l : gmap string A) !! k = alist_find k l.
Proof.
  induction l as [|[k' v] l IH]; simpl.
  - apply lookup_empty.
  - rewrite lookup_insert. destruct (String.eqb_spec k' k) as [->|Hne].
    + by rewrite decide_True.
    + by rewrite decide_False.
Qed.

Lemma table_get_str {A} (l : list (string * A)) (s : string) (dflt : A) :
  table_get (list_to_map l) (VStr s) dflt = Ok (default dflt (alist_find s l)).
Proof. unfold table_get. by rewrite list_to_map_alist_find. Qed.

Lemma contentful_locale_es (locale : string) :
  String.prefix "es-" locale = true → contentful_locale locale = "es".
Proof. unfold contentful_locale. by intros ->. Qed.

(** C8.  On a string that is not a key of its table, each style helper
    returns its default and does not raise: the bare prefix, trailing
    hyphen included, for the aspect-ratio, product and width classes; the
    empty string for the layout class and, off the literal [Dark], for
    the theme class. *)
Theorem style_helpers_default (s : string) :
  (ASPECT_RATIOS !! s = None →
     _get_aspect_ratio_class (VStr s) = Ok "mzp-has-aspect-") ∧
  (PRODUCT_THEMES !! s = None →
     _get_product_class (VStr s) = Ok "mzp-t-product-") ∧
  (WIDTHS !! s = None →
     _get_abbr_from_width (VStr s) = Ok "" ∧
     _get_width_class (VStr s) = Ok "mzp-t-content-") ∧
  (LAYOUT_CLASS !! s = None → _get_layout_class (VStr s) = Ok "") ∧
  (s ≠ "Dark" → _get_theme_class (VStr s) = "").
Proof.
  unfold _get_aspect_ratio_class, _get_product_class, _get_width_class,
    _get_abbr_from_width, _get_layout_class, _get_theme_class, table_get.
  split; [by intros ->|]. split; [by intros ->|].
  split; [by intros ->|]. split; [by intros ->|].
  intros Hne. simpl. by destruct (String.eqb_spec s "Dark").
Qed.

Lemma style_helpers_default_witness :
  _get_aspect_ratio_class (VStr "4:3") = Ok "mzp-has-aspect-" ∧
  _get_product_class (VStr "4:3") = Ok "mzp-t-product-" ∧
  _get_width_class (VStr "4:3") = Ok "mzp-t-content-" ∧
  _get_layout_class (VStr "4:3") = Ok "" ∧
  _get_theme_class (VStr "4:3") = "".
Proof.
  destruct (style_helpers_default "4:3") as (Ha & Hp & Hw & Hl & Ht).
  split; [apply Ha; reflexivity|].
  split; [apply Hp; reflexivity|].
  split; [apply Hw; reflexivity|].
  split; [apply Hl; reflexivity|].
  apply Ht; discriminate.
Defined.

(** ** Image height *)

Lemma float_lit_0_6666 :
  float_lit 6666 10000 = S754_finite false 6004199023210345 (-53).
Proof. reflexivity. Qed.

Lemma float_lit_0_5625 :
  float_lit 5625 10000 = S754_finite false 5066549580791808 (-53).
Proof. reflexivity. Qed.

(** *** Exact cases of the binary64 operations *)

Lemma float_lit_1_0 :
  float_lit 10 10 = S754_finite false 4503599627370496 (-52).
Proof. reflexivity. Qed.

Lemma digits2_pos_iter_xO (w k : positive) :
  digits2_pos (Pos.iter xO w k) = (digits2_pos w + k)%positive.
Proof.
  induction k as [|k IH] using Pos.peano_ind.
  - simpl. lia.
  - rewrite Pos.iter_succ. simpl. rewrite IH. lia.
Qed.

Lemma Zpos_iter_xO (w k : positive) :
  Z.pos (Pos.iter xO w k) = (Z.pos w * 2 ^ Z.pos k)%Z.
Proof.
  induction k as [|k IH] using Pos.peano_ind.
  - simpl. lia.
  - rewrite Pos.iter_succ, Pos2Z.inj_xO, IH, Pos2Z.inj_succ, Z.pow_succ_r by lia.
    lia.
Qed.

Lemma digits2_pos_lower (w : positive) :
  (2 ^ (Z.pos (digits2_pos w) - 1) <= Z.pos w)%Z.
Proof.
  induction w as [w IH|w IH|]; cbn [digits2_pos]; [| |done].
  - rewrite Pos2Z.inj_succ.
    replace (Z.succ (Z.pos (digits2_pos w)) - 1)%Z
      with (Z.succ (Z.pos (digits2_pos w) - 1)) by lia.
    rewrite Z.pow_succ_r by lia. lia.
  - rewrite Pos2Z.inj_succ.
    replace (Z.succ (Z.pos (digits2_pos w)) - 1)%Z
      with (Z.succ (Z.pos (digits2_pos w) - 1)) by lia.
    rewrite Z.pow_succ_r by lia. lia.
Qed.

Lemma digits2_pos_le_53 (w : positive) :
  (Z.pos w < 2 ^ 53)%Z → (Z.pos (digits2_pos w) <= 53)%Z.
Proof.
  intros Hw.
  destruct (Z.le_gt_cases (Z.pos (digits2_pos w)) 53) as [|Hgt]; [done|].
  pose proof (digits2_pos_lower w) as Hl.
  assert (2 ^ 53 <= 2 ^ (Z.pos (digits2_pos w) - 1))%Z
    by (apply Z.pow_le_mono_r; lia).
  lia.
Qed.

(** A mantissa of full width needs no shift. *)
Lemma shr_fexp_canonical (m : positive) (e : Z) :
  digits2_pos m = 53%positive → (-1074 <= e)%Z →
  shr_fexp prec emax (Z.pos m) e loc_Exact
  = ({| shr_m := Z.pos m; shr_r := false; shr_s := false |}, e).
Proof.
  intros Hd He. unfold shr_fexp, fexp, emin, prec, emax, Zdigits2. rewrite Hd.
  replace (Z.max (53 + e - 53) (3 - 1024 - 53) - e)%Z with 0%Z by lia.
  reflexivity.
Qed.

Lemma binary_round_aux_canonical s (m : positive) (e : Z) :
  digits2_pos m = 53%positive → (-1074 <= e <= 971)%Z →
  binary_round_aux prec emax s (Z.pos m) e loc_Exact = S754_finite s m e.
Proof.
  intros Hd He. unfold binary_round_aux.
  rewrite shr_fexp_canonical by (done || lia).
  cbn [shr_m loc_of_shr_record round_nearest_even].
  rewrite shr_fexp_canonical by (done || lia).
  cbn [shr_m]. unfold prec, emax.
  destruct (Z.leb_spec e (1024 - 53)); [done|lia].
Qed.

Lemma iter_pos_shr_1_xO (m : positive) :
  SpecFloat.iter_pos shr_1 52
    {| shr_m := Z.pos (Pos.iter xO m 52); shr_r := false; shr_s := false |}
  = {| shr_m := Z.pos m; shr_r := false; shr_s := false |}.
Proof. reflexivity. Qed.

(** Multiplying a normal double by 1.0 is exact. *)
Lemma SFmul_one s (m : positive) (e : Z) :
  digits2_pos m = 53%positive → (-1022 <= e <= 971)%Z →
  SFmul prec emax (S754_finite s m e) (float_lit 10 10) = S754_finite s m e.
Proof.
  intros Hd He. rewrite float_lit_1_0. unfold SFmul.
  replace (m * 4503599627370496)%positive with (Pos.iter xO m 52) by (simpl; lia).
  unfold binary_round_aux at 1.
  assert (shr_fexp prec emax (Z.pos (Pos.iter xO m 52)) (e + -52) loc_Exact
          = ({| shr_m := Z.pos m; shr_r := false; shr_s := false |}, e)) as ->.
  { unfold shr_fexp, fexp, emin, prec, emax, Zdigits2.
    rewrite digits2_pos_iter_xO, Hd.
    replace (Z.max (Z.pos (53 + 52) + (e + -52) - 53) (3 - 1024 - 53) - (e + -52))%Z
      with 52%Z by lia.
    cbn [shr_record_of_loc shr]. rewrite iter_pos_shr_1_xO. f_equal. lia. }
  cbn [shr_m loc_of_shr_record round_nearest_even].
  rewrite shr_fexp_canonical by (done || lia).
  cbn [shr_m]. unfold prec, emax. rewrite xorb_false_r.
  destruct (Z.leb_spec e (1024 - 53)); [done|lia].
Qed.

(** [float(w)] for [0 < w < 2^53], with either sign: the mantissa is [w]
    shifted to full width. *)
Lemma binary_round_small s (w : positive) :
  (Z.pos w < 2 ^ 53)%Z →
  ∃ m k, binary_round prec emax s w 0 = S754_finite s m (- k)
       ∧ digits2_pos m = 53%positive
       ∧ (0 <= k <= 52)%Z
       ∧ Z.pos m = (Z.pos w * 2 ^ k)%Z.
Proof.
  intros Hw%digits2_pos_le_53.
  unfold binary_round, shl_align, fexp, emin, prec, emax.
  destruct (Z.max (Z.pos (digits2_pos w) + 0 - 53) (3 - 1024 - 53) - 0)%Z
    as [|p|k] eqn:Hk; [|lia|].
  - assert (digits2_pos w = 53%positive) as Hdig by lia.
    exists w, 0%Z. split; [|split; [done|split; [lia|lia]]].
    replace (Z.pos (digits2_pos w) + 0)%Z with 53%Z by lia.
    by apply binary_round_aux_canonical.
  - assert (Z.pos k = 53 - Z.pos (digits2_pos w))%Z as Hk' by lia.
    assert (digits2_pos (Pos.iter xO w k) = 53%positive) as Hdig.
    { rewrite digits2_pos_iter_xO. lia. }
    pose proof (digits2_pos_lower w).
    exists (Pos.iter xO w k), (Z.pos k).
    split; [|split; [done|split; [lia|apply Zpos_iter_xO]]].
    replace (Z.max (Z.pos (digits2_pos w) + 0 - 53) (3 - 1024 - 53))
      with (- Z.pos k)%Z by lia.
    apply binary_round_aux_canonical; [done|lia].
Qed.

Lemma round_half_even_shift_exact (w k : Z) :
  (0 <= w)%Z → (0 <= k)%Z → round_half_even_shift (w * 2 ^ k) k = w.
Proof.
  intros Hw Hk. unfold round_half_even_shift.
  rewrite Z.shiftr_div_pow2, Z.div_mul by lia.
  rewrite !Z.shiftl_mul_pow2 by lia.
  replace (2 * (w * 2 ^ k - w * 2 ^ k))%Z with 0%Z by lia.
  assert (0 < 2 ^ k)%Z by lia.
  destruct (Z.compare_spec 0 (1 * 2 ^ k)); (done || lia).
Qed.

(** [round(w * 1.0) = w] for every integer [w] that a double holds
    exactly. *)
Lemma round_mul_one (w : Z) :
  (- 2 ^ 53 < w < 2 ^ 53)%Z → round_mul w (NFloat (float_lit 10 10)) = Ok w.
Proof.
  intros Hw. unfold round_mul, py_mul, int_to_float, SF_of_Z, binary_normalize.
  destruct w as [|w|w]; [done| |].
  - destruct (binary_round_small false w) as (m & k & -> & Hd & Hk & Hm); [lia|].
    cbn [mbind result_mbind result_bind].
    rewrite SFmul_one by (done || lia). unfold py_round.
    destruct (Z.leb_spec 0 (- k)).
    + assert (k = 0)%Z as -> by lia. f_equal. rewrite Z.shiftl_0_r. lia.
    + by rewrite Hm, Z.opp_involutive, round_half_even_shift_exact by lia.
  - destruct (binary_round_small true w) as (m & k & -> & Hd & Hk & Hm); [lia|].
    cbn [mbind result_mbind result_bind].
    rewrite SFmul_one by (done || lia). unfold py_round.
    destruct (Z.leb_spec 0 (- k)).
    + assert (k = 0)%Z as -> by lia. f_equal. rewrite Z.shiftl_0_r. lia.
    + rewrite Hm, Z.opp_involutive, round_half_even_shift_exact by lia. done.
Qed.

(** C9.  The height is [round(width * m)] for the table's multiplier [m],
    which is numerically 1.0 for [1:1], 0.6666 for [3:2], 0.5625 for
    [16:9] and 0 otherwise.  For [1:1] the table holds the integer 1, so
    the product is exact and the height is the width; with the double 1.0
    in its place the result is the same for every width a double holds
    exactly.  For an aspect the table does not know the height is 0 and
    nothing is raised; width 800 at [16:9] gives 450. *)
Theorem get_height_spec (width : Z) (aspect : string) :
  let m := default (NInt 0) (ASPECT_MULTIPLIER !! aspect) in
  num_eqb m (spec_multiplier aspect) = true ∧
  _get_height width (VStr aspect) = round_mul width m ∧
  _get_height width (VStr aspect) =
    (if String.eqb aspect "1:1" then Ok width
     else if String.eqb aspect "3:2" then
       round_mul width (NFloat (float_lit 6666 10000))
     else if String.eqb aspect "16:9" then
       round_mul width (NFloat (float_lit 5625 10000))
     else Ok 0%Z) ∧
  ((- 2 ^ 53 < width < 2 ^ 53)%Z →
     _get_height width (VStr aspect) = round_mul width (spec_multiplier aspect)) ∧
  _get_height 800 (VStr "16:9") = Ok 450%Z.
Proof.
  unfold _get_height, ASPECT_MULTIPLIER, spec_multiplier.
  rewrite table_get_str, list_to_map_alist_find. cbn [alist_find].
  rewrite !(String.eqb_sym _ aspect).
  destruct (String.eqb aspect "1:1") eqn:E1; [|
  destruct (String.eqb aspect "3:2") eqn:E2; [|
  destruct (String.eqb aspect "16:9") eqn:E3]]; simpl.
  - assert (round_mul width (NInt 1) = Ok width) as Hone.
    { unfold round_mul. simpl. by rewrite Z.mul_1_r. }
    repeat split; try done.
    intros Hw. rewrite round_mul_one by done. exact Hone.
  - repeat split; reflexivity.
  - repeat split; reflexivity.
  - repeat split; try reflexivity. unfold round_mul. simpl.
    by rewrite Z.mul_0_r.
Qed.

Lemma get_height_spec_witness :
  _get_height 800 (VStr "1:1") = round_mul 800 (spec_multiplier "1:1") ∧
  _get_height 1860 (VStr "16:9") = round_mul 1860 (spec_multiplier "16:9").
Proof.
  split.
  - destruct (get_height_spec 800 "1:1") as (_ & _ & _ & H & _).
    apply H. split; reflexivity.
  - destruct (get_height_spec 1860 "16:9") as (_ & _ & _ & H & _).
    apply H. split; reflexivity.
Defined.

Example get_height_samples :
  _get_height 800 (VStr "3:2") = Ok 533%Z ∧
  _get_height 1860 (VStr "16:9") = Ok 1046%Z ∧
  _get_height 800 VNone = Ok 0%Z.
Proof. repeat split. Qed.

(** On widths up to 4096 the binary64 computation agrees with the exact
    decimal one. *)
Example get_height_exact_upto_4096 :
  forallb (λ w,
      match _get_height w (VStr "16:9"), _get_height w (VStr "3:2") with
      | Ok h169, Ok h32 =>
          (h169 =? round_half_even_div (w * 5625) 10000)%Z
          && (h32 =? round_half_even_div (w * 6666) 10000)%Z
      | _, _ => false
      end)
    (seqZ 0 4097) = true.
Proof. vm_compute. reflexivity. Qed.

(** ** Computations with a trace *)

Section monad_facts.
Context {A B : Type}.
Implicit Types (m : M A) (f : A → M B).

Lemma bind_ok_iff m f b :
  (m ≫= f).1 = Ok b ↔ ∃ a, m.1 = Ok a ∧ (f a).1 = Ok b.
Proof.
  unfold mbind, M_mbind, M_bind. destruct m as [[a|e] t]; simpl.
  - split; [eauto|]. by intros (a' & [= <-] & ?).
  - split; [done|]. by intros (? & ? & ?).
Qed.

Lemma bind_ok m f a : m.1 = Ok a → (m ≫= f).1 = (f a).1.
Proof.
  unfold mbind, M_mbind, M_bind. destruct m as [r t]; simpl. by intros ->.
Qed.

Lemma bind_raise m f e : m.1 = Raise e → (m ≫= f).1 = Raise e.
Proof.
  unfold mbind, M_mbind, M_bind. destruct m as [r t]; simpl. by intros ->.
Qed.

Lemma bind_eq m f a t r t' :
  m = (Ok a, t) → f a = (r, t') → m ≫= f = (r, t ++ t').
Proof.
  unfold mbind, M_mbind, M_bind. intros -> Hf; simpl. by rewrite Hf.
Qed.

Lemma bind_trace_Forall (P : event → Prop) m f :
  Forall P m.2 → (∀ a, m.1 = Ok a → Forall P (f a).2) →
  Forall P (m ≫= f).2.
Proof.
  unfold mbind, M_mbind, M_bind. destruct m as [[a|e] t]; simpl; [|done].
  intros Ht Hf. apply Forall_app; split; [done|]. by apply Hf.
Qed.
End monad_facts.

Lemma result_bind_ok_iff {A B} (r : result A) (f : A → result B) b :
  r ≫= f = Ok b ↔ ∃ a, r = Ok a ∧ f a = Ok b.
Proof.
  destruct r as [a|e]; simpl.
  - split; [eauto|]. by intros (a' & [= <-] & ?).
  - split; [done|]. by intros (? & ? & ?).
Qed.

Lemma lift_bind_ok_iff {A B} (r : result A) (f : A → M B) b :
  (lift r ≫= f).1 = Ok b ↔ ∃ a, r = Ok a ∧ (f a).1 = Ok b.
Proof. apply bind_ok_iff. Qed.

(** Decompose a hypothesis stating that a sequence of steps returned. *)
Ltac inv_ok H :=
  repeat match type of H with
  | (lift _ ≫= _).1 = Ok _ =>
      let a := fresh "x" in let E := fresh "E" in
      apply lift_bind_ok_iff in H as (a & E & H)
  | (_ ≫= _).1 = Ok _ =>
      let a := fresh "x" in let E := fresh "E" in
      apply bind_ok_iff in H as (a & E & H)
  | (_ ≫= _) = Ok _ =>
      let a := fresh "x" in let E := fresh "E" in
      apply result_bind_ok_iff in H as (a & E & H)
  | (mret _).1 = Ok _ => injection H as H
  | (lift ?r).1 = Ok ?a => change (r = Ok a) in H
  end.

(** ** The client *)

Lemma client_entry_ok (self : ContentfulPage) id inc e :
  (client_entry self id inc).1 = Ok e →
  client_entry self id inc = (Ok e, [EvEntry id inc]) ∧ entry_id e = id.
Proof.
  unfold client_entry. destruct (client self) as [space|]; [|done].
  destruct (head _) as [e'|] eqn:Hh; [|done].
  intros [= <-]. split; [done|].
  apply head_Some_elem_of, list_elem_of_filter in Hh. tauto.
Qed.

Lemma client_entry_trace_not_render (self : ContentfulPage) id inc :
  Forall (λ ev, is_render ev = false) (client_entry self id inc).2.
Proof.
  unfold client_entry. destruct (client self) as [space|]; [|constructor].
  destruct (head _); repeat constructor.
Qed.

(** ** Calls to action *)

Lemma get_cta_data_present (self : ContentfulPage) (cta : val) d :
  py_truthy cta = true →
  (get_cta_data self cta).1 = Ok d ↔
    ∃ cta_id cta_obj,
      val_id cta = Ok cta_id ∧
      (get_entry_by_id self cta_id).1 = Ok cta_obj ∧
      d = [("component", VStr (entry_content_type cta_obj));
           ("label", dict_get (entry_fields cta_obj) "label");
           ("action", dict_get (entry_fields cta_obj) "action");
           ("size", VStr "mzp-t-xl");
           ("theme", VStr "mzp-t-primary");
           ("include_cta", VBool true)].
Proof.
  intros Ht. unfold get_cta_data. rewrite Ht. split.
  - intros H. inv_ok H. eauto.
  - intros (cta_id & cta_obj & Hid & Hobj & ->).
    apply lift_bind_ok_iff. exists cta_id. split; [done|].
    apply bind_ok_iff. by exists cta_obj.
Qed.

Lemma get_cta_data_trace_not_render (self : ContentfulPage) (cta : val) :
  Forall (λ ev, is_render ev = false) (get_cta_data self cta).2.
Proof.
  unfold get_cta_data. destruct (py_truthy cta); [|constructor].
  apply bind_trace_Forall; [constructor|]. intros cta_id _.
  apply bind_trace_Forall; [apply client_entry_trace_not_render|].
  intros; constructor.
Qed.

(** C7.  A falsy call-to-action reference yields exactly
    [{'include_cta': False}] and causes no event at all, so nothing is
    fetched.  A truthy one yields, when its entry is fetched, the mapping
    with [include_cta: True], the entry's label and action, and the fixed
    size [mzp-t-xl] and theme [mzp-t-primary], after exactly one fetch. *)
Theorem get_cta_data_spec (self : ContentfulPage) (cta : val) :
  (py_truthy cta = false →
     get_cta_data self cta = (Ok [("include_cta", VBool false)], [])) ∧
  (py_truthy cta = true →
     ∀ cta_id cta_obj,
       val_id cta = Ok cta_id →
       (get_entry_by_id self cta_id).1 = Ok cta_obj →
       get_cta_data self cta =
         (Ok [("component", VStr (entry_content_type cta_obj));
              ("label", dict_get (entry_fields cta_obj) "label");
              ("action", dict_get (entry_fields cta_obj) "action");
              ("size", VStr "mzp-t-xl");
              ("theme", VStr "mzp-t-primary");
              ("include_cta", VBool true)],
          [EvEntry cta_id None])) ∧
  (py_truthy cta = true →
     ∀ d, (get_cta_data self cta).1 = Ok d →
       dict_lookup d "include_cta" = Some (VBool true) ∧
       dict_lookup d "size" = Some (VStr "mzp-t-xl") ∧
       dict_lookup d "theme" = Some (VStr "mzp-t-primary") ∧
       dict_mem "label" d = true ∧ dict_mem "action" d = true).
Proof.
  split; [|split].
  - intros Ht. unfold get_cta_data. by rewrite Ht.
  - intros Ht cta_id cta_obj Hid Hobj. unfold get_cta_data. rewrite Ht.
    apply client_entry_ok in Hobj as [Hobj _].
    rewrite Hid. erewrite (bind_eq (lift _)); [|done|].
    2: { erewrite bind_eq; [done|exact Hobj|done]. }
    done.
  - intros Ht d Hd. apply get_cta_data_present in Hd as (? & ? & _ & _ & ->); done.
Qed.

Lemma get_cta_data_spec_witness :
  get_cta_data demo_page VNone = (Ok [("include_cta", VBool false)], []) ∧
  get_cta_data demo_page (VLink "cta1") =
    (Ok [("component", VStr "componentCtaDownload");
         ("label", VStr "Download");
         ("action", VStr "/download");
         ("size", VStr "mzp-t-xl");
         ("theme", VStr "mzp-t-primary");
         ("include_cta", VBool true)],
     [EvEntry "cta1" None]) ∧
  ∃ d, (get_cta_data demo_page (VLink "cta1")).1 = Ok d ∧
       dict_lookup d "include_cta" = Some (VBool true) ∧
       dict_lookup d "size" = Some (VStr "mzp-t-xl") ∧
       dict_lookup d "theme" = Some (VStr "mzp-t-primary") ∧
       dict_mem "label" d = true ∧ dict_mem "action" d = true.
Proof.
  destruct (get_cta_data_spec demo_page VNone) as (Habsent & _ & _).
  destruct (get_cta_data_spec demo_page (VLink "cta1")) as (_ & Hpresent & Hkeys).
  split; [|split].
  - apply Habsent. reflexivity.
  - apply (Hpresent eq_refl "cta1"
             {| entry_id := "cta1"; entry_content_type := "componentCtaDownload";
                entry_fields := [("label", VStr "Download");
                                 ("action", VStr "/download")] |});
      reflexivity.
  - eexists. split; [vm_compute; reflexivity|].
    apply (Hkeys eq_refl). vm_compute; reflexivity.
Defined.

(** Build the proof that a sequence of steps returned, step by step. *)
Ltac ok_step :=
  first [apply lift_bind_ok_iff | apply bind_ok_iff];
  eexists; split; [eassumption|].

(** ** Dictionaries *)

Lemma dict_lookup_set (d : dict) k v k' :
  dict_lookup (dict_set d k v) k' =
    if String.eqb k k' then Some v else dict_lookup d k'.
Proof.
  induction d as [|[k0 v0] d IH]; simpl.
  - by destruct (String.eqb k k').
  - destruct (String.eqb_spec k0 k) as [->|Hne]; simpl.
    + by destruct (String.eqb k k').
    + rewrite IH. destruct (String.eqb_spec k k') as [->|]; [|done].
      by destruct (String.eqb_spec k0 k').
Qed.

Lemma dict_get_set (d : dict) k v k' :
  dict_get (dict_set d k v) k' = if String.eqb k k' then v else dict_get d k'.
Proof.
  unfold dict_get. rewrite dict_lookup_set. by destruct (String.eqb k k').
Qed.

Lemma dict_set_set (d : dict) k v v' :
  dict_set (dict_set d k v) k v' = dict_set d k v'.
Proof.
  induction d as [|[k0 v0] d IH]; simpl.
  - by rewrite String.eqb_refl.
  - destruct (String.eqb_spec k0 k) as [->|Hne]; simpl.
    + by rewrite String.eqb_refl.
    + destruct (String.eqb_spec k0 k); [done|]. by rewrite IH.
Qed.

(** ** Cards *)

Section cards.
Variable asset_url : dict → Z → Z → string → string → result string.
Variable self : ContentfulPage.

Lemma render_body_absent (fields : dict) :
  py_truthy (dict_get fields "body") = false →
  render_body_if_present self fields = (Ok "", []).
Proof. unfold render_body_if_present. by intros ->. Qed.

Lemma get_card_data_ok card_id aspect_ratio d :
  (get_card_data asset_url self card_id aspect_ratio).1 = Ok d ↔
  ∃ card body url cls,
    (get_entry_by_id self card_id).1 = Ok card ∧
    (render_body_if_present self (entry_fields card)).1 = Ok body ∧
    _get_image_url asset_url (dict_get (entry_fields card) "image") 800 aspect_ratio
      = Ok url ∧
    _get_aspect_ratio_class aspect_ratio = Ok cls ∧
    d = [("component", VStr "card");
         ("heading", dict_get (entry_fields card) "heading");
         ("tag", dict_get (entry_fields card) "tag");
         ("link", dict_get (entry_fields card) "link");
         ("body", VStr body);
         ("aspect_ratio", VStr cls);
         ("highres_image_url", VStr url);
         ("image_url", VStr url)].
Proof.
  unfold get_card_data. split.
  - intros H. inv_ok H. subst d.
    assert (x1 = x2) as -> by congruence. eauto 10.
  - intros (card & body & url & cls & Hc & Hb & Hu & Hcls & ->).
    do 5 ok_step. reflexivity.
Qed.

Lemma get_large_card_data_ok card_layout_id card_id d :
  (get_large_card_data asset_url self card_layout_id card_id).1 = Ok d ↔
  ∃ layout url card_data,
    (get_entry_by_id self card_layout_id).1 = Ok layout ∧
    _get_image_url asset_url (dict_get (entry_fields layout) "image") 1860 (VStr "16:9")
      = Ok url ∧
    (get_card_data asset_url self card_id (VStr "16:9")).1 = Ok card_data ∧
    d = large_card_overwrite card_data url.
Proof.
  unfold get_large_card_data, large_card_overwrite. split.
  - intros H. inv_ok H. subst d.
    assert (x0 = x1) as -> by congruence. eauto 10.
  - intros (layout & url & card_data & Hl & Hu & Hc & ->).
    do 4 ok_step. reflexivity.
Qed.

Lemma large_card_spec_ok card_layout_id card_id d :
  (large_card_spec asset_url self card_layout_id card_id).1 = Ok d ↔
  ∃ layout url card_data,
    (get_entry_by_id self card_layout_id).1 = Ok layout ∧
    _get_image_url asset_url (dict_get (entry_fields layout) "image") 1860 (VStr "16:9")
      = Ok url ∧
    (get_card_data asset_url self card_id (VStr "16:9")).1 = Ok card_data ∧
    d = large_card_overwrite card_data url.
Proof.
  unfold large_card_spec. split.
  - intros H. inv_ok H. subst d. eauto 10.
  - intros (layout & url & card_data & Hl & Hu & Hc & ->).
    do 3 ok_step. reflexivity.
Qed.

End cards.

Lemma dict_set_same (d : dict) k v :
  dict_lookup d k = Some v → dict_set d k v = d.
Proof.
  induction d as [|[k0 v0] d IH]; simpl; [done|].
  destruct (String.eqb_spec k0 k) as [->|Hne]; [by intros [= ->]|].
  intros H. by rewrite IH.
Qed.

Lemma dict_get_VList_lookup (d : dict) k l :
  dict_get d k = VList l → dict_lookup d k = Some (VList l).
Proof.
  unfold dict_get. destruct (dict_lookup d k); simpl; [by intros ->|done].
Qed.

Section card_layouts.
Variable asset_url : dict → Z → Z → string → string → result string.
Variable self : ContentfulPage.

Lemma cards_append_ok (d : dict) l x :
  dict_get d "cards" = VList l →
  cards_append d x = Ok (dict_set d "cards" (VList (l ++ [x]))).
Proof. unfold cards_append. by intros ->. Qed.

(** The loop over the layout's cards appends, in source order, the card
    of each item to the list under ['cards']. *)
Lemma for_each_cards_ok aspect_ratio items : ∀ d0 l0 d,
  dict_get d0 "cards" = VList l0 →
  (for_each (λ card_layout_data card,
       card_id ← lift (val_id card);
       card_data ← get_card_data asset_url self card_id aspect_ratio;
       lift (cards_append card_layout_data (VDict card_data)))
     items d0).1 = Ok d ↔
  ∃ cards, cards_of asset_url self aspect_ratio items cards ∧
           d = dict_set d0 "cards" (VList (l0 ++ (VDict <$> cards))).
Proof.
  induction items as [|item items IH]; intros d0 l0 d Hl0; cbn [for_each].
  - split.
    + intros [= <-]. exists []. split; [constructor|].
      simpl. rewrite app_nil_r.
      symmetry. by apply dict_set_same, dict_get_VList_lookup.
    + intros (cards & Hc & ->). apply Forall2_nil_inv_l in Hc as ->.
      simpl. rewrite app_nil_r. f_equal. symmetry.
      by apply dict_set_same, dict_get_VList_lookup.
  - split.
    + intros H. apply bind_ok_iff in H as (d1 & H1 & H).
      inv_ok H1. rewrite (cards_append_ok _ l0) in H1 by done.
      injection H1 as <-.
      eapply IH in H as (cards & Hc & ->).
      2: { by rewrite dict_get_set. }
      exists (x0 :: cards). split.
      * constructor; [by exists x|done].
      * rewrite dict_set_set. simpl. by rewrite <- app_assoc.
    + intros (cards & Hc & ->).
      apply Forall2_cons_inv_l in Hc as (card & cards' & (id & Hid & Hcard) & Hc & ->).
      apply bind_ok_iff.
      exists (dict_set d0 "cards" (VList (l0 ++ [VDict card]))). split.
      * do 2 ok_step. simpl. by rewrite (cards_append_ok _ l0).
      * eapply IH; [by rewrite dict_get_set|].
        exists cards'. split; [done|].
        rewrite dict_set_set. simpl. by rewrite <- app_assoc.
Qed.

Lemma get_entry_by_id_det id e e' :
  (get_entry_by_id self id).1 = Ok e → (get_entry_by_id self id).1 = Ok e' → e = e'.
Proof. congruence. Qed.

(** C6.  For a layout entry tagged [layout5Cards], the extraction returns
    exactly when the large card, reached through layout → large-card
    configuration → card, and the card of every item of the [content]
    sequence, each at the layout's configured aspect ratio, can be
    extracted; its [cards] list is then the large card followed by those
    cards in source order. *)
Theorem five_card_layout_cards (layout_id : string) (config : Entry) :
  (get_entry_by_id self layout_id).1 = Ok config →
  entry_content_type config = "layout5Cards" →
  ∀ d, (get_card_layout_data asset_url self layout_id).1 = Ok d ↔
    ∃ large items cards,
      large_card_of asset_url self (entry_fields config) large ∧
      py_iter (dict_get (entry_fields config) "content") = Ok items ∧
      cards_of asset_url self (dict_get (entry_fields config) "aspect_ratio")
        items cards ∧
      d = [("component", VStr "cardLayout");
           ("layout_class", VStr "mzp-l-card-hero");
           ("aspect_ratio", dict_get (entry_fields config) "aspect_ratio");
           ("cards", VList (VDict large :: (VDict <$> cards)))].
Proof.
  intros Hconfig Hty d. unfold get_card_layout_data. split.
  - intros H. apply bind_ok_iff in H as (config' & Hc' & H).
    assert (config' = config) as -> by (by eapply get_entry_by_id_det).
    rewrite Hty in H.
    apply lift_bind_ok_iff in H as (cls & [= <-] & H).
    apply bind_ok_iff in H as (d1 & H1 & H).
    rewrite String.eqb_refl in H1. inv_ok H1.
    injection H1 as <-.
    apply lift_bind_ok_iff in H as (items & Hitems & H).
    eapply (for_each_cards_ok _ _ _ [VDict x2]) in H as (cards & Hcards & ->);
      [|done].
    exists x2, items, cards. split; [by exists x, x0, x1|]. done.
  - intros (large & items & cards & (lid & lf & cid & Hlid & Hlf & Hcid & Hlarge)
            & Hitems & Hcards & ->).
    ok_step. rewrite Hty.
    apply lift_bind_ok_iff. exists "mzp-l-card-hero". split; [done|].
    apply bind_ok_iff.
    exists [("component", VStr "cardLayout");
            ("layout_class", VStr "mzp-l-card-hero");
            ("aspect_ratio", dict_get (entry_fields config) "aspect_ratio");
            ("cards", VList [VDict large])].
    split; [rewrite String.eqb_refl; by do 4 ok_step|].
    ok_step. eapply (for_each_cards_ok _ _ _ [VDict large]); [done|].
    by exists cards.
Qed.

End card_layouts.

(** The large card does not depend on the aspect ratio configured on the
    layout. *)
Lemma large_card_of_any_aspect_ratio
    (asset_url : dict → Z → Z → string → string → result string)
    (self : ContentfulPage) (config_fields large : dict) (aspect_ratio : val) :
  large_card_of asset_url self config_fields large ↔
  large_card_of asset_url self (dict_set config_fields "aspect_ratio" aspect_ratio)
    large.
Proof. unfold large_card_of. by rewrite dict_get_set. Qed.

Lemma five_card_layout_cards_witness :
  ∃ d, (get_card_layout_data demo_asset_url demo_page "five").1 = Ok d ∧
    ∃ large items cards,
      large_card_of demo_asset_url demo_page (entry_fields demo_five) large ∧
      py_iter (dict_get (entry_fields demo_five) "content") = Ok items ∧
      cards_of demo_asset_url demo_page
        (dict_get (entry_fields demo_five) "aspect_ratio") items cards ∧
      d = [("component", VStr "cardLayout");
           ("layout_class", VStr "mzp-l-card-hero");
           ("aspect_ratio", dict_get (entry_fields demo_five) "aspect_ratio");
           ("cards", VList (VDict large :: (VDict <$> cards)))].
Proof.
  eexists. split; [vm_compute; reflexivity|].
  apply (five_card_layout_cards demo_asset_url demo_page "five" demo_five
           eq_refl eq_refl).
  vm_compute; reflexivity.
Defined.

(** ** Image URLs of cards *)

(** C10.  In the output of a card and of a large card the two image URLs
    are the same string: the one URL of the card's image at width 800
    and the given aspect ratio, respectively of the layout-level image at
    width 1860 and [16:9]. *)
Theorem card_image_urls_equal
    (asset_url : dict → Z → Z → string → string → result string)
    (self : ContentfulPage) :
  (∀ card_id aspect_ratio d,
     (get_card_data asset_url self card_id aspect_ratio).1 = Ok d →
     ∃ card url,
       (get_entry_by_id self card_id).1 = Ok card ∧
       _get_image_url asset_url (dict_get (entry_fields card) "image")
         800 aspect_ratio = Ok url ∧
       dict_lookup d "highres_image_url" = Some (VStr url) ∧
       dict_lookup d "image_url" = Some (VStr url)) ∧
  (∀ card_layout_id card_id d,
     (get_large_card_data asset_url self card_layout_id card_id).1 = Ok d →
     ∃ layout url,
       (get_entry_by_id self card_layout_id).1 = Ok layout ∧
       _get_image_url asset_url (dict_get (entry_fields layout) "image")
         1860 (VStr "16:9") = Ok url ∧
       dict_lookup d "highres_image_url" = Some (VStr url) ∧
       dict_lookup d "image_url" = Some (VStr url)).
Proof.
  split.
  - intros card_id aspect_ratio d H.
    apply get_card_data_ok in H as (card & body & url & cls & Hc & _ & Hu & _ & ->).
    by exists card, url.
  - intros card_layout_id card_id d H.
    apply get_large_card_data_ok in H as (layout & url & card_data & Hl & Hu & _ & ->).
    exists layout, url. unfold large_card_overwrite.
    by rewrite !dict_lookup_set.
Qed.

Lemma card_image_urls_equal_witness :
  (∃ d card url,
     (get_card_data demo_asset_url demo_page "card1" (VStr "3:2")).1 = Ok d ∧
     (get_entry_by_id demo_page "card1").1 = Ok card ∧
     _get_image_url demo_asset_url (dict_get (entry_fields card) "image")
       800 (VStr "3:2") = Ok url ∧
     dict_lookup d "highres_image_url" = Some (VStr url) ∧
     dict_lookup d "image_url" = Some (VStr url)) ∧
  (∃ d layout url,
     (get_large_card_data demo_asset_url demo_page "large1" "card1").1 = Ok d ∧
     (get_entry_by_id demo_page "large1").1 = Ok layout ∧
     _get_image_url demo_asset_url (dict_get (entry_fields layout) "image")
       1860 (VStr "16:9") = Ok url ∧
     dict_lookup d "highres_image_url" = Some (VStr url) ∧
     dict_lookup d "image_url" = Some (VStr url)).
Proof.
  split.
  - destruct (proj1 (card_image_urls_equal demo_asset_url demo_page)
                "card1" (VStr "3:2") _ eq_refl) as (card & url & H).
    eexists _, card, url. split; [reflexivity|exact H].
  - destruct (proj2 (card_image_urls_equal demo_asset_url demo_page)
                "large1" "card1" _ eq_refl) as (layout & url & H).
    eexists _, layout, url. split; [reflexivity|exact H].
Defined.

(** ** The large card *)

Lemma large_card_overwrite_lookup (card_data : dict) (url : string) k :
  dict_lookup (large_card_overwrite card_data url) k =
    if String.eqb "image_url" k then Some (VStr url)
    else if String.eqb "highres_image_url" k then Some (VStr url)
    else if String.eqb "component" k then Some (VStr "large_card")
    else dict_lookup card_data k.
Proof. unfold large_card_overwrite. by rewrite !dict_lookup_set. Qed.

(** C5.  Large-card extraction has the outcome of "extract the referenced
    card at [16:9], then overwrite [component] with [large_card] and both
    image URLs with the URL of the layout-level image at width 1860 and
    [16:9]": both raise, or both return the same mapping.  The overwrite
    keeps the card's keys, sets exactly those three fields and leaves
    every other field as the card extraction gave it; the aspect-ratio
    class of the result is always that of [16:9]. *)
Theorem large_card_refines_card
    (asset_url : dict → Z → Z → string → string → result string)
    (self : ContentfulPage) (card_layout_id card_id : string) :
  same_outcome (get_large_card_data asset_url self card_layout_id card_id).1
               (large_card_spec asset_url self card_layout_id card_id).1 ∧
  (∀ card_data url,
     (get_card_data asset_url self card_id (VStr "16:9")).1 = Ok card_data →
     let d := large_card_overwrite card_data url in
     dict_keys d = dict_keys card_data ∧
     dict_lookup d "component" = Some (VStr "large_card") ∧
     dict_lookup d "highres_image_url" = Some (VStr url) ∧
     dict_lookup d "image_url" = Some (VStr url) ∧
     ∀ k, k ≠ "component" → k ≠ "highres_image_url" → k ≠ "image_url" →
          dict_lookup d k = dict_lookup card_data k) ∧
  (∀ d, (get_large_card_data asset_url self card_layout_id card_id).1 = Ok d →
     dict_lookup d "aspect_ratio" = Some (VStr "mzp-has-aspect-16-9")).
Proof.
  split; [|split].
  - destruct (get_large_card_data _ _ _ _).1 as [d1|e1] eqn:H1;
      destruct (large_card_spec _ _ _ _).1 as [d2|e2] eqn:H2; simpl; [| | |done].
    + apply get_large_card_data_ok in H1. apply large_card_spec_ok in H1.
      congruence.
    + apply get_large_card_data_ok in H1. apply large_card_spec_ok in H1.
      congruence.
    + apply large_card_spec_ok in H2. apply get_large_card_data_ok in H2.
      congruence.
  - intros card_data url H d. subst d.
    apply get_card_data_ok in H as (card & body & u & cls & _ & _ & _ & _ & ->).
    split; [reflexivity|]. do 3 (split; [by rewrite large_card_overwrite_lookup|]).
    intros k H1 H2 H3. rewrite large_card_overwrite_lookup.
    destruct (String.eqb_spec "image_url" k); [congruence|].
    destruct (String.eqb_spec "highres_image_url" k); [congruence|].
    destruct (String.eqb_spec "component" k); [congruence|done].
  - intros d H.
    apply get_large_card_data_ok in H as (layout & url & card_data & _ & _ & H & ->).
    apply get_card_data_ok in H as (card & body & u & cls & _ & _ & _ & Hcls & ->).
    injection Hcls as <-. by rewrite large_card_overwrite_lookup.
Qed.

Lemma large_card_refines_card_witness :
  ∃ card_data d,
    (get_card_data demo_asset_url demo_page "card1" (VStr "16:9")).1 = Ok card_data ∧
    (get_large_card_data demo_asset_url demo_page "large1" "card1").1 = Ok d ∧
    dict_keys d = dict_keys card_data ∧
    dict_lookup d "component" = Some (VStr "large_card") ∧
    dict_lookup d "aspect_ratio" = Some (VStr "mzp-has-aspect-16-9") ∧
    ∀ k, k ≠ "component" → k ≠ "highres_image_url" → k ≠ "image_url" →
         dict_lookup d k = dict_lookup card_data k.
Proof.
  destruct (large_card_refines_card demo_asset_url demo_page "large1" "card1")
    as (_ & Hover & Haspect).
  eexists _, _. split; [reflexivity|]. split; [vm_compute; reflexivity|].
  specialize (Hover _
    "https://images.ctfassets.net/large-img.png?w=1860&h=1046&fit=fill&f=faces"
    eq_refl) as (Hkeys & Hcomp & _ & _ & Hrest).
  split; [exact Hkeys|]. split; [exact Hcomp|].
  split; [exact (Haspect _ eq_refl)|exact Hrest].
Defined.

(** ** Shapes of the component outputs *)

Section outputs.
Variable asset_url : dict → Z → Z → string → string → result string.
Variable self : ContentfulPage.

Lemma get_text_data_ok value d :
  (get_text_data self value).1 = Ok d ↔
  ∃ body, renderer self value = Ok body ∧
          d = [("component", VStr "text");
               ("body", VStr body);
               ("width_class", VStr "mzp-t-content-md")].
Proof.
  unfold get_text_data, render. split.
  - intros H. inv_ok H. injection E0 as <-. subst d. eauto.
  - intros (body & Hb & ->). apply bind_ok_iff. exists body. split; [|done].
    apply bind_ok_iff. by exists ().
Qed.

Lemma get_text_data_trace value : (get_text_data self value).2 = [EvRender value].
Proof.
  unfold get_text_data, render, mbind, M_mbind, M_bind, lift, emit. simpl.
  by destruct (renderer self value).
Qed.

Lemma get_card_layout_data_shape layout_id d :
  (get_card_layout_data asset_url self layout_id).1 = Ok d →
  ∃ config cls cards,
    (get_entry_by_id self layout_id).1 = Ok config ∧
    _get_layout_class (VStr (entry_content_type config)) = Ok cls ∧
    d = [("component", VStr "cardLayout");
         ("layout_class", VStr cls);
         ("aspect_ratio", dict_get (entry_fields config) "aspect_ratio");
         ("cards", VList cards)].
Proof.
  unfold get_card_layout_data. intros H.
  apply bind_ok_iff in H as (config & Hc & H).
  apply lift_bind_ok_iff in H as (cls & Hcls & H).
  apply bind_ok_iff in H as (d1 & H1 & H).
  apply lift_bind_ok_iff in H as (items & Hitems & H).
  exists config, cls.
  destruct (String.eqb _ "layout5Cards").
  - inv_ok H1. injection H1 as <-.
    eapply (for_each_cards_ok _ _ _ _ _ [VDict x2]) in H as (cards & _ & ->);
      [|done].
    by eexists.
  - injection H1 as <-.
    eapply (for_each_cards_ok _ _ _ _ _ []) in H as (cards & _ & ->); [|done].
    by eexists.
Qed.

Lemma get_hero_data_component hero_id d :
  (get_hero_data self hero_id).1 = Ok d →
  dict_lookup d "component" = Some (VStr "hero").
Proof. unfold get_hero_data. intros H. inv_ok H. by subst d. Qed.

Lemma get_section_heading_data_ok heading_id d :
  (get_section_heading_data self heading_id).1 = Ok d ↔
  ∃ heading_obj,
    (get_entry_by_id self heading_id).1 = Ok heading_obj ∧
    d = [("component", VStr "sectionHeading");
         ("heading", dict_get (entry_fields heading_obj) "heading")].
Proof.
  unfold get_section_heading_data. split.
  - intros H. inv_ok H. eauto.
  - intros (h & Hh & ->). by ok_step.
Qed.

Lemma get_callout_data_ok callout_id d :
  (get_callout_data self callout_id).1 = Ok d ↔
  ∃ config content_id content body cls cta,
    (get_entry_by_id self callout_id).1 = Ok config ∧
    val_id (dict_get (entry_fields config) "component_callout") = Ok content_id ∧
    (get_entry_by_id self content_id).1 = Ok content ∧
    (render_body_if_present self (entry_fields content)).1 = Ok body ∧
    _get_product_class (dict_get (entry_fields content) "product_icon") = Ok cls ∧
    (get_cta_data self (dict_get (entry_fields content) "cta")).1 = Ok cta ∧
    d = [("component", VStr "callout");
         ("theme_class", VStr (_get_theme_class (dict_get (entry_fields config) "theme")));
         ("product_class", VStr cls);
         ("title", dict_get (entry_fields content) "heading");
         ("body", VStr body);
         ("cta", VDict cta)].
Proof.
  unfold get_callout_data. split.
  - intros H. inv_ok H. subst d. eauto 15.
  - intros (config & content_id & content & body & cls & cta
            & H1 & H2 & H3 & H4 & H5 & H6 & ->).
    do 6 ok_step. reflexivity.
Qed.

End outputs.

(** C4, as the code has it.  Every mapping returned by the hero, section
    heading, callout, card, large card, card layout and text extractions
    carries its [component] tag, and so does the call to action of a
    truthy reference, tagged with the content type of its entry; a falsy
    reference yields [{'include_cta': False}], which has no [component]
    key. *)
Theorem component_discriminator
    (asset_url : dict → Z → Z → string → string → result string)
    (self : ContentfulPage) :
  (∀ id d, (get_hero_data self id).1 = Ok d →
     dict_lookup d "component" = Some (VStr "hero")) ∧
  (∀ id d, (get_section_heading_data self id).1 = Ok d →
     dict_lookup d "component" = Some (VStr "sectionHeading")) ∧
  (∀ id d, (get_callout_data self id).1 = Ok d →
     dict_lookup d "component" = Some (VStr "callout")) ∧
  (∀ id aspect_ratio d, (get_card_data asset_url self id aspect_ratio).1 = Ok d →
     dict_lookup d "component" = Some (VStr "card")) ∧
  (∀ layout_id id d, (get_large_card_data asset_url self layout_id id).1 = Ok d →
     dict_lookup d "component" = Some (VStr "large_card")) ∧
  (∀ id d, (get_card_layout_data asset_url self id).1 = Ok d →
     dict_lookup d "component" = Some (VStr "cardLayout")) ∧
  (∀ value d, (get_text_data self value).1 = Ok d →
     dict_lookup d "component" = Some (VStr "text")) ∧
  (∀ cta d, py_truthy cta = true → (get_cta_data self cta).1 = Ok d →
     ∃ content_type, dict_lookup d "component" = Some (VStr content_type)) ∧
  (∀ cta d, py_truthy cta = false → (get_cta_data self cta).1 = Ok d →
     d = [("include_cta", VBool false)] ∧ dict_mem "component" d = false).
Proof.
  repeat apply conj.
  - apply get_hero_data_component.
  - intros id d H. by apply get_section_heading_data_ok in H as (? & _ & ->).
  - intros id d H.
    by apply get_callout_data_ok in H as (? & ? & ? & ? & ? & ? & _ & _ & _ & _ & _ & _ & ->).
  - intros id aspect_ratio d H.
    by apply get_card_data_ok in H as (? & ? & ? & ? & _ & _ & _ & _ & ->).
  - intros layout_id id d H.
    apply get_large_card_data_ok in H as (? & ? & ? & _ & _ & _ & ->).
    by rewrite large_card_overwrite_lookup.
  - intros id d H.
    by apply get_card_layout_data_shape in H as (? & ? & ? & _ & _ & ->).
  - intros value d H. by apply get_text_data_ok in H as (? & _ & ->).
  - intros cta d Ht H.
    apply get_cta_data_present in H as (? & obj & _ & _ & ->); [|done].
    by exists (entry_content_type obj).
  - intros cta d Ht H. unfold get_cta_data in H. rewrite Ht in H.
    by injection H as <-.
Qed.

Lemma component_discriminator_witness :
  (∃ d, (get_hero_data demo_page "hero1").1 = Ok d ∧
        dict_lookup d "component" = Some (VStr "hero")) ∧
  (∃ d, (get_section_heading_data demo_page "head1").1 = Ok d ∧
        dict_lookup d "component" = Some (VStr "sectionHeading")) ∧
  (∃ d, (get_callout_data demo_page "callout1").1 = Ok d ∧
        dict_lookup d "component" = Some (VStr "callout")) ∧
  (∃ d, (get_card_data demo_asset_url demo_page "card1" (VStr "3:2")).1 = Ok d ∧
        dict_lookup d "component" = Some (VStr "card")) ∧
  (∃ d, (get_large_card_data demo_asset_url demo_page "large1" "card1").1 = Ok d ∧
        dict_lookup d "component" = Some (VStr "large_card")) ∧
  (∃ d, (get_card_layout_data demo_asset_url demo_page "three").1 = Ok d ∧
        dict_lookup d "component" = Some (VStr "cardLayout")) ∧
  (∃ d, (get_text_data demo_page (demo_doc "Hello")).1 = Ok d ∧
        dict_lookup d "component" = Some (VStr "text")) ∧
  (∃ d, (get_cta_data demo_page (VLink "cta1")).1 = Ok d ∧
        ∃ content_type, dict_lookup d "component" = Some (VStr content_type)) ∧
  (∃ d, (get_cta_data demo_page VNone).1 = Ok d ∧
        d = [("include_cta", VBool false)] ∧ dict_mem "component" d = false).
Proof.
  destruct (component_discriminator demo_asset_url demo_page)
    as (H1 & H2 & H3 & H4 & H5 & H6 & H7 & H8 & H9).
  repeat apply conj; eexists.
  - split; [|apply (H1 "hero1")]; vm_compute; reflexivity.
  - split; [|apply (H2 "head1")]; vm_compute; reflexivity.
  - split; [|apply (H3 "callout1")]; vm_compute; reflexivity.
  - split; [|apply (H4 "card1" (VStr "3:2"))]; vm_compute; reflexivity.
  - split; [|apply (H5 "large1" "card1")]; vm_compute; reflexivity.
  - split; [|apply (H6 "three")]; vm_compute; reflexivity.
  - split; [|apply (H7 (demo_doc "Hello"))]; vm_compute; reflexivity.
  - split; [|apply (H8 (VLink "cta1")); [reflexivity|]]; vm_compute; reflexivity.
  - split; [|apply (H9 VNone); [reflexivity|]]; vm_compute; reflexivity.
Defined.

(** C4 as stated fails at the call to action of an absent reference. *)
Lemma absent_cta_has_no_component :
  ∃ d, (get_cta_data demo_page VNone).1 = Ok d ∧ dict_mem "component" d = false.
Proof. by eexists. Qed.

(** ** Rich-text bodies *)

Section bodies.
Variable asset_url : dict → Z → Z → string → string → result string.
Variable self : ContentfulPage.

Local Abbreviation no_render := (Forall (λ ev, is_render ev = false)).

Lemma truthy_None_body (fields : dict) :
  dict_get fields "body" = VNone → py_truthy (dict_get fields "body") = false.
Proof. by intros ->. Qed.

Lemma get_callout_data_no_render callout_id config content_id content :
  (get_entry_by_id self callout_id).1 = Ok config →
  val_id (dict_get (entry_fields config) "component_callout") = Ok content_id →
  (get_entry_by_id self content_id).1 = Ok content →
  py_truthy (dict_get (entry_fields content) "body") = false →
  no_render (get_callout_data self callout_id).2.
Proof.
  intros Hconfig Hid Hcontent Hbody. unfold get_callout_data.
  apply bind_trace_Forall; [apply client_entry_trace_not_render|].
  intros config' Hc'. assert (config' = config) as -> by congruence.
  apply bind_trace_Forall; [constructor|].
  intros id' Hid'. assert (id' = content_id) as -> by (simpl in Hid'; congruence).
  apply bind_trace_Forall; [apply client_entry_trace_not_render|].
  intros content' Hc''. assert (content' = content) as -> by congruence.
  apply bind_trace_Forall; [by rewrite render_body_absent|]. intros body _.
  apply bind_trace_Forall; [constructor|]. intros cls _.
  apply bind_trace_Forall; [apply get_cta_data_trace_not_render|].
  intros; constructor.
Qed.

Lemma get_card_data_no_render card_id aspect_ratio card :
  (get_entry_by_id self card_id).1 = Ok card →
  py_truthy (dict_get (entry_fields card) "body") = false →
  no_render (get_card_data asset_url self card_id aspect_ratio).2.
Proof.
  intros Hcard Hbody. unfold get_card_data.
  apply bind_trace_Forall; [apply client_entry_trace_not_render|].
  intros card' Hc'. assert (card' = card) as -> by congruence.
  apply bind_trace_Forall; [by rewrite render_body_absent|]. intros body _.
  repeat (apply bind_trace_Forall; [constructor|]; intros ? _).
  constructor.
Qed.

End bodies.

(** C3, as the code has it.  When the [body] field of the callout's
    content entry, or of the card's entry, is absent or null, the
    extraction never calls the renderer and the [body] of its output is
    the empty string.  Text extraction has no such guard: it hands its
    argument to the renderer whatever it is, and returns exactly when the
    renderer does, with the rendered string as [body]. *)
Theorem rich_text_bodies
    (asset_url : dict → Z → Z → string → string → result string)
    (self : ContentfulPage) :
  (∀ callout_id config content_id content,
     (get_entry_by_id self callout_id).1 = Ok config →
     val_id (dict_get (entry_fields config) "component_callout") = Ok content_id →
     (get_entry_by_id self content_id).1 = Ok content →
     dict_get (entry_fields content) "body" = VNone →
     Forall (λ ev, is_render ev = false) (get_callout_data self callout_id).2 ∧
     ∀ d, (get_callout_data self callout_id).1 = Ok d →
          dict_lookup d "body" = Some (VStr "")) ∧
  (∀ card_id aspect_ratio card,
     (get_entry_by_id self card_id).1 = Ok card →
     dict_get (entry_fields card) "body" = VNone →
     Forall (λ ev, is_render ev = false)
       (get_card_data asset_url self card_id aspect_ratio).2 ∧
     ∀ d, (get_card_data asset_url self card_id aspect_ratio).1 = Ok d →
          dict_lookup d "body" = Some (VStr "")) ∧
  (∀ value,
     (get_text_data self value).2 = [EvRender value] ∧
     ∀ d, (get_text_data self value).1 = Ok d ↔
          ∃ body, renderer self value = Ok body ∧
                  d = [("component", VStr "text");
                       ("body", VStr body);
                       ("width_class", VStr "mzp-t-content-md")]).
Proof.
  split; [|split].
  - intros callout_id config content_id content Hconfig Hid Hcontent Hbody.
    apply truthy_None_body in Hbody. split.
    + by eapply get_callout_data_no_render.
    + intros d H.
      apply get_callout_data_ok in H
        as (config' & id' & content' & body & cls & cta
            & H1 & H2 & H3 & H4 & _ & _ & ->).
      assert (config' = config) as -> by congruence.
      assert (id' = content_id) as -> by congruence.
      assert (content' = content) as -> by congruence.
      rewrite render_body_absent in H4 by done. by injection H4 as <-.
  - intros card_id aspect_ratio card Hcard Hbody.
    apply truthy_None_body in Hbody. split.
    + by eapply get_card_data_no_render.
    + intros d H.
      apply get_card_data_ok in H as (card' & body & url & cls & H1 & H2 & _ & _ & ->).
      assert (card' = card) as -> by congruence.
      rewrite render_body_absent in H2 by done. by injection H2 as <-.
  - intros value. split; [apply get_text_data_trace|].
    intros d. apply get_text_data_ok.
Qed.

Lemma rich_text_bodies_witness :
  (Forall (λ ev, is_render ev = false) (get_callout_data demo_page "callout1").2 ∧
   ∃ d, (get_callout_data demo_page "callout1").1 = Ok d ∧
        dict_lookup d "body" = Some (VStr "")) ∧
  (Forall (λ ev, is_render ev = false)
     (get_card_data demo_asset_url demo_page "card3" (VStr "3:2")).2 ∧
   ∃ d, (get_card_data demo_asset_url demo_page "card3" (VStr "3:2")).1 = Ok d ∧
        dict_lookup d "body" = Some (VStr "")) ∧
  (Forall (λ ev, is_render ev = false)
     (get_card_data demo_asset_url demo_page "card2" (VStr "3:2")).2 ∧
   ∃ d, (get_card_data demo_asset_url demo_page "card2" (VStr "3:2")).1 = Ok d ∧
        dict_lookup d "body" = Some (VStr "")).
Proof.
  destruct (rich_text_bodies demo_asset_url demo_page) as (Hcallout & Hcard & _).
  split; [|split].
  - destruct (Hcallout "callout1" _ "calloutc" _ eq_refl eq_refl eq_refl eq_refl)
      as [Htrace Hbody].
    split; [exact Htrace|]. eexists. split; [vm_compute; reflexivity|].
    apply Hbody. vm_compute; reflexivity.
  - destruct (Hcard "card3" (VStr "3:2") _ eq_refl eq_refl) as [Htrace Hbody].
    split; [exact Htrace|]. eexists. split; [vm_compute; reflexivity|].
    apply Hbody. vm_compute; reflexivity.
  - destruct (Hcard "card2" (VStr "3:2") _ eq_refl eq_refl) as [Htrace Hbody].
    split; [exact Htrace|]. eexists. split; [vm_compute; reflexivity|].
    apply Hbody. vm_compute; reflexivity.
Defined.

(** C3 as stated fails at text extraction: on an absent value the
    renderer is invoked, and no empty body comes back. *)
Lemma text_of_absent_value_is_rendered :
  (¬ ∃ d, (get_text_data demo_page VNone).1 = Ok d ∧
          dict_lookup d "body" = Some (VStr "")) ∧
  EvRender VNone ∈ (get_text_data demo_page VNone).2.
Proof.
  split.
  - by intros (d & H & _).
  - vm_compute. left.
Qed.

Example get_text_data_None :
  get_text_data demo_page VNone = (Raise TypeError, [EvRender VNone]).
Proof. reflexivity. Qed.

(** ** Page data *)

Lemma list_comp_ok {A B} (f : A → M B) (l : list A) (out : list B) :
  (list_comp f l).1 = Ok out ↔ Forall2 (λ x y, (f x).1 = Ok y) l out.
Proof.
  revert out. induction l as [|x l IH]; intros out; cbn [list_comp].
  - split.
    + intros [= <-]. constructor.
    + by intros ->%Forall2_nil_inv_l.
  - split.
    + intros H. inv_ok H. subst out. constructor; [done|]. by apply IH.
    + intros (y & ys & Hy & Hys & ->)%Forall2_cons_inv_l.
      ok_step. apply bind_ok_iff. exists ys. split; [by apply IH|done].
Qed.

Lemma get_page_data_ok (self : ContentfulPage) (page_id : string) (d : dict) :
  (get_page_data self page_id).1 = Ok d ↔
  ∃ page info,
    (client_entry self page_id (Some 5%Z)).1 = Ok page ∧
    get_info_data (entry_fields page) = Ok info ∧
    d = [("page_type", VStr (entry_content_type page));
         ("info", VDict info);
         ("fields", VDict (entry_fields page))].
Proof.
  unfold get_page_data. split.
  - intros H. inv_ok H. eauto.
  - intros (page & info & Hp & Hi & ->). by do 2 ok_step.
Qed.

(** C2, as the code has it.  [get_all_page_data] lists the entries of
    content type [pageVersatile] and returns, for each in turn, the whole
    of [get_page_data] on its id: the page type, the summary [info] and
    the entry's complete field mapping. *)
Theorem get_all_page_data_full (self : ContentfulPage) (space : list Entry) :
  client self = Some space →
  (∀ out, (get_all_page_data self).1 = Ok out ↔
     Forall2 (λ p d, (get_page_data self (entry_id p)).1 = Ok d)
       (filter (λ e, entry_content_type e = "pageVersatile") space) out) ∧
  (∀ page_id d, (get_page_data self page_id).1 = Ok d ↔
     ∃ page info,
       (client_entry self page_id (Some 5%Z)).1 = Ok page ∧
       get_info_data (entry_fields page) = Ok info ∧
       d = [("page_type", VStr (entry_content_type page));
            ("info", VDict info);
            ("fields", VDict (entry_fields page))]).
Proof.
  intros Hclient. split; [|apply get_page_data_ok].
  intros out. unfold get_all_page_data, client_entries. rewrite Hclient.
  rewrite <- list_comp_ok. split.
  - intros H. inv_ok H. by injection E as <-.
  - intros H. apply bind_ok_iff. eexists. split; [|exact H].
    apply bind_ok_iff. by exists ().
Qed.

Lemma get_all_page_data_full_witness :
  ∃ out, (get_all_page_data demo_page).1 = Ok out ∧
    Forall2 (λ p d, (get_page_data demo_page (entry_id p)).1 = Ok d)
      (filter (λ e, entry_content_type e = "pageVersatile") demo_space) out.
Proof.
  eexists. split; [vm_compute; reflexivity|].
  apply (get_all_page_data_full demo_page demo_space eq_refl).
  vm_compute; reflexivity.
Defined.

(** C2 as stated fails: the one versatile page of the sample space comes
    back with its page type and all its fields, not as its [info]. *)
Lemma get_all_page_data_not_only_info :
  ¬ (∀ out, (get_all_page_data demo_page).1 = Ok out →
       Forall2 (λ p d, get_info_data (entry_fields p) = Ok d)
         (filter (λ e, entry_content_type e = "pageVersatile") demo_space) out).
Proof.
  intros H. specialize (H _ eq_refl).
  apply Forall2_cons_1 in H as [H _]. vm_compute in H. discriminate H.
Qed.

(** ** The page walker *)

Lemma get_content_raises
    (asset_url : dict → Z → Z → string → string → result string)
    (self : ContentfulPage) (page_id : string) :
  ∃ e, (get_content asset_url self page_id).1 = Raise e.
Proof.
  unfold get_content.
  destruct (get_page_data self page_id).1 as [page_data|e] eqn:H.
  - exists TypeError. by rewrite (bind_ok _ _ _ H).
  - exists e. by apply bind_raise.
Qed.

(** C1.  On the home page of the sample space, whose [content] is one
    [componentHero] followed by one [layout3Cards], [get_content] raises
    [TypeError] right after fetching the page: it subscripts the page id
    with the key [page_type]. *)
Theorem get_content_home_raises :
  get_content demo_asset_url demo_page "home"
    = (Raise TypeError, [EvEntry "home" (Some 5%Z)]).
Proof. reflexivity. Qed.

(** Evaluate comparisons of string literals. *)
Ltac eval_eqb :=
  repeat match goal with
  | |- context [String.eqb ?a ?b] =>
      let v := eval vm_compute in (String.eqb a b) in
      match v with
      | true => change (String.eqb a b) with true
      | false => change (String.eqb a b) with false
      end
  end.

Ltac eval_eqb_in H :=
  repeat match type of H with
  | context [String.eqb ?a ?b] =>
      let v := eval vm_compute in (String.eqb a b) in
      match v with
      | true => change (String.eqb a b) with true in H
      | false => change (String.eqb a b) with false in H
      end
  end.

(** Given the page type that [get_page_data] returned, the rest of
    [get_content] does what C1 describes: on a home page whose [content]
    is a hero followed by a three-card layout, the entries are the hero
    output and then the card-layout output, whose layout class is
    [mzp-l-card-third]. *)
Lemma get_content_entries_home_hero_cards
    (asset_url : dict → Z → Z → string → string → result string)
    (self : ContentfulPage) (fields : dict) (hero_item layout_item : val)
    (hero_id layout_id : string) (entries : list val) :
  dict_get fields "content" = VList [hero_item; layout_item] →
  val_content_type_id hero_item = Ok "componentHero" →
  val_id hero_item = Ok hero_id →
  val_content_type_id layout_item = Ok "layout3Cards" →
  val_id layout_item = Ok layout_id →
  (∀ config, (get_entry_by_id self layout_id).1 = Ok config →
             entry_content_type config = "layout3Cards") →
  (get_content_entries asset_url self (VStr "pageHome") (VDict fields)).1
    = Ok entries ↔
  ∃ hero layout,
    (get_hero_data self hero_id).1 = Ok hero ∧
    (get_card_layout_data asset_url self layout_id).1 = Ok layout ∧
    dict_lookup layout "layout_class" = Some (VStr "mzp-l-card-third") ∧
    entries = [VDict hero; VDict layout].
Proof.
  intros Hcontent Hty1 Hid1 Hty2 Hid2 Hstore.
  assert (Hclass : ∀ layout,
    (get_card_layout_data asset_url self layout_id).1 = Ok layout →
    dict_lookup layout "layout_class" = Some (VStr "mzp-l-card-third")).
  { intros layout H.
    apply get_card_layout_data_shape in H as (config & cls & cards & Hc & Hcls & ->).
    rewrite (Hstore _ Hc) in Hcls. by injection Hcls as <-. }
  unfold get_content_entries. cbn [val_eq_str]. eval_eqb.
  cbn [val_get lift]. rewrite Hcontent. cbn [py_iter].
  split.
  - intros H.
    apply lift_bind_ok_iff in H as (content & [= <-] & H).
    apply lift_bind_ok_iff in H as (items & [= <-] & H).
    cbn [for_each] in H.
    apply bind_ok_iff in H as (entries1 & H1 & H).
    apply bind_ok_iff in H as (entries2 & H2 & H).
    injection H as <-.
    rewrite Hty1, Hid1 in H1.
    apply lift_bind_ok_iff in H1 as (ct1 & [= <-] & H1). eval_eqb_in H1.
    apply lift_bind_ok_iff in H1 as (id1 & [= <-] & H1).
    apply bind_ok_iff in H1 as (hero & Hhero & [= <-]).
    rewrite Hty2, Hid2 in H2.
    apply lift_bind_ok_iff in H2 as (ct2 & [= <-] & H2). eval_eqb_in H2.
    apply lift_bind_ok_iff in H2 as (id2 & [= <-] & H2).
    apply bind_ok_iff in H2 as (layout & Hlayout & [= <-]).
    exists hero, layout. auto.
  - intros (hero & layout & Hhero & Hlayout & _ & ->).
    apply lift_bind_ok_iff. eexists. split; [reflexivity|].
    apply lift_bind_ok_iff. eexists. split; [reflexivity|].
    cbn [for_each]. rewrite Hty1, Hid1, Hty2, Hid2.
    apply bind_ok_iff. exists [VDict hero]. split.
    + apply lift_bind_ok_iff. eexists. split; [reflexivity|]. eval_eqb.
      apply lift_bind_ok_iff. eexists. split; [reflexivity|]. by ok_step.
    + apply bind_ok_iff. exists [VDict hero; VDict layout]. split; [|done].
      apply lift_bind_ok_iff. eexists. split; [reflexivity|]. eval_eqb.
      apply lift_bind_ok_iff. eexists. split; [reflexivity|]. by ok_step.
Qed.

Example get_content_entries_home :
  ∃ hero layout,
    (page_data ← get_page_data demo_page "home";
     fields ← lift (dict_getitem page_data "fields");
     page_type ← lift (dict_getitem page_data "page_type");
     get_content_entries demo_asset_url demo_page page_type fields).1
      = Ok [VDict hero; VDict layout] ∧
    dict_lookup hero "component" = Some (VStr "hero") ∧
    dict_lookup layout "component" = Some (VStr "cardLayout") ∧
    dict_lookup layout "layout_class" = Some (VStr "mzp-l-card-third").
Proof. eexists _, _. split; [vm_compute; reflexivity|]. by repeat split. Qed.

(** * Further properties of the module *)

(** ** Locale and style helpers *)

(** X1.  The locale mapper sends every [es-…] locale to [es], [de] to
    [de-DE] and leaves any other locale unchanged; applying it twice
    changes nothing more. *)
Theorem contentful_locale_idempotent (locale : string) :
  contentful_locale locale =
    (if String.prefix "es-" locale then "es"
     else if String.eqb locale "de" then "de-DE" else locale) ∧
  contentful_locale (contentful_locale locale) = contentful_locale locale.
Proof.
  assert (Hspec : ∀ l, contentful_locale l =
    (if String.prefix "es-" l then "es"
     else if String.eqb l "de" then "de-DE" else l)).
  { intros l. unfold contentful_locale, LOCALE_MAP.
    rewrite list_to_map_alist_find. cbn [alist_find].
    rewrite (String.eqb_sym "de" l). by destruct (String.prefix "es-" l), (String.eqb l "de"). }
  split; [apply Hspec|]. rewrite (Hspec locale).
  destruct (String.prefix "es-" locale) eqn:Hp; [done|].
  destruct (String.eqb locale "de") eqn:Hd; [done|].
  by rewrite Hspec, Hp, Hd.
Qed.

(** X2.  The lookups behind the class helpers accept any hashable value:
    a value that is not a string (an absent field gives [None]) is never
    a key, so the helper returns its bare default; only a list or a
    dictionary, being unhashable, makes it raise [TypeError]. *)
Theorem style_helpers_on_any_value (v : val) :
  (hashable v = false →
     _get_product_class v = Raise TypeError ∧
     _get_aspect_ratio_class v = Raise TypeError ∧
     _get_width_class v = Raise TypeError ∧
     _get_layout_class v = Raise TypeError) ∧
  (hashable v = true →
     (∃ slug, _get_product_class v = Ok ("mzp-t-product-" +:+ slug)) ∧
     (∃ slug, _get_aspect_ratio_class v = Ok ("mzp-has-aspect-" +:+ slug)) ∧
     (∃ abbr, _get_width_class v = Ok ("mzp-t-content-" +:+ abbr)) ∧
     (∃ cls, _get_layout_class v = Ok cls)) ∧
  (hashable v = true → (∀ s, v ≠ VStr s) →
     _get_product_class v = Ok "mzp-t-product-" ∧
     _get_aspect_ratio_class v = Ok "mzp-has-aspect-" ∧
     _get_width_class v = Ok "mzp-t-content-" ∧
     _get_layout_class v = Ok "").
Proof.
  unfold _get_product_class, _get_aspect_ratio_class, _get_width_class,
    _get_abbr_from_width, _get_layout_class, table_get.
  split; [|split].
  - by destruct v.
  - destruct v; try done; intros _; cbn [mbind result_mbind result_bind];
      (split; [|split; [|split]]); eexists; reflexivity.
  - intros Hh Hs. destruct v; try done. by destruct (Hs s).
Qed.

Lemma style_helpers_on_any_value_witness :
  _get_product_class (VList []) = Raise TypeError ∧
  (∃ slug, _get_product_class (VStr "Firefox Beta") = Ok ("mzp-t-product-" +:+ slug)) ∧
  _get_product_class VNone = Ok "mzp-t-product-" ∧
  _get_aspect_ratio_class VNone = Ok "mzp-has-aspect-".
Proof.
  destruct (style_helpers_on_any_value (VList [])) as (Hbad & _ & _).
  destruct (style_helpers_on_any_value (VStr "Firefox Beta")) as (_ & Hok & _).
  destruct (style_helpers_on_any_value VNone) as (_ & _ & Hnone).
  split; [apply Hbad; reflexivity|].
  split; [apply Hok; reflexivity|].
  destruct (Hnone eq_refl) as (Hp & Ha & _); [discriminate|]. by split.
Defined.

(** ** Image URLs *)



(** ** Page summaries *)

(** X4.  The summary of a page needs [preview_title] and then
    [preview_blurb]: the first one missing is the [KeyError] raised.
    When it returns, its keys are [title], [blurb], [slug] and, exactly
    when the fields have a [preview_image], [image] last; title and blurb
    are the fields' values and the slug defaults to [home]. *)
Theorem get_info_data_shape (fields : dict) :
  (dict_lookup fields "preview_title" = None →
     get_info_data fields = Raise (KeyError "preview_title")) ∧
  (dict_mem "preview_title" fields = true →
   dict_lookup fields "preview_blurb" = None →
     get_info_data fields = Raise (KeyError "preview_blurb")) ∧
  (∀ info, get_info_data fields = Ok info →
     dict_keys info =
       ["title"; "blurb"; "slug"]
       ++ (if dict_mem "preview_image" fields then ["image"] else []) ∧
     dict_lookup fields "preview_title" = dict_lookup info "title" ∧
     dict_lookup fields "preview_blurb" = dict_lookup info "blurb" ∧
     dict_lookup info "slug" = Some (dict_get_or fields "slug" (VStr "home"))).
Proof.
  unfold get_info_data, dict_getitem, dict_mem. split; [|split].
  - by intros ->.
  - destruct (dict_lookup fields "preview_title"); [|done]. by intros _ ->.
  - intros info.
    destruct (dict_lookup fields "preview_title") as [title|]; [|done].
    destruct (dict_lookup fields "preview_blurb") as [blurb|]; [|done].
    cbn [mbind result_mbind result_bind].
    destruct (dict_lookup fields "preview_image") as [image|].
    + intros H. cbn [mbind result_mbind result_bind] in H.
      apply result_bind_ok_iff in H as (image_fields & _ & H).
      apply result_bind_ok_iff in H as (url & _ & H).
      apply result_bind_ok_iff in H as (s & _ & [= <-]). done.
    + by intros [= <-].
Qed.

Lemma get_info_data_shape_witness :
  get_info_data [("preview_blurb", VStr "b")] = Raise (KeyError "preview_title") ∧
  get_info_data [("preview_title", VStr "t")] = Raise (KeyError "preview_blurb") ∧
  ∃ info,
    get_info_data [("preview_title", VStr "t"); ("preview_blurb", VStr "b");
                   ("preview_image", demo_image "p")] = Ok info ∧
    dict_keys info = ["title"; "blurb"; "slug"; "image"] ∧
    dict_lookup info "slug" = Some (VStr "home").
Proof.
  split; [|split].
  - by apply (get_info_data_shape [("preview_blurb", VStr "b")]).
  - by apply (get_info_data_shape [("preview_title", VStr "t")]).
  - eexists. split; [vm_compute; reflexivity|].
    destruct (get_info_data_shape
                [("preview_title", VStr "t"); ("preview_blurb", VStr "b");
                 ("preview_image", demo_image "p")]) as (_ & _ & H).
    destruct (H _ eq_refl) as (Hk & _ & _ & Hs). by split.
Defined.

(** ** Requests *)

Lemma bind_raise_eq {A B} (m : M A) (f : A → M B) e t :
  m = (Raise e, t) → m ≫= f = (Raise e, t).
Proof. by intros ->. Qed.

Lemma bind_trace_ok {A B} (m : M A) (f : A → M B) a :
  m.1 = Ok a → (m ≫= f).2 = m.2 ++ (f a).2.
Proof.
  unfold mbind, M_mbind, M_bind. destruct m as [r t]; simpl. by intros ->.
Qed.

Lemma bind_trace_raise {A B} (m : M A) (f : A → M B) e :
  m.1 = Raise e → (m ≫= f).2 = m.2.
Proof.
  unfold mbind, M_mbind, M_bind. destruct m as [r t]; simpl. by intros ->.
Qed.

Lemma bind_raise_iff {A B} (m : M A) (f : A → M B) e :
  (m ≫= f).1 = Raise e ↔
  m.1 = Raise e ∨ ∃ a, m.1 = Ok a ∧ (f a).1 = Raise e.
Proof.
  unfold mbind, M_mbind, M_bind. destruct m as [[a|e'] t]; simpl.
  - split.
    + intros H. right. by exists a.
    + intros [?|(a' & [= <-] & ?)]; done.
  - split.
    + intros [= ->]. by left.
    + intros [[= ->]|(a & H & _)]; [done|discriminate H].
Qed.

Lemma client_entry_no_client (self : ContentfulPage) id inc :
  client self = None → client_entry self id inc = (Raise AttributeError, []).
Proof. unfold client_entry. by intros ->. Qed.

Lemma client_entry_trace (self : ContentfulPage) space id inc :
  client self = Some space → (client_entry self id inc).2 = [EvEntry id inc].
Proof.
  unfold client_entry. intros ->. by destruct (head _).
Qed.


Lemma get_page_data_one_request_aux (self : ContentfulPage) (p : Entry) space :
  client self = Some space →
  (get_page_data self (entry_id p)).2 = [EvEntry (entry_id p) (Some 5%Z)].
Proof.
  intros Hc. unfold get_page_data.
  destruct (client_entry self (entry_id p) (Some 5%Z)).1 as [page|e] eqn:Hp.
  - rewrite (bind_trace_ok _ _ _ Hp), (client_entry_trace _ _ _ _ Hc).
    by destruct (get_info_data (entry_fields page)).
  - by rewrite (bind_trace_raise _ _ _ Hp), (client_entry_trace _ _ _ _ Hc).
Qed.

(** X5.  Loading a page costs exactly one request, the page entry with
    reference depth 5, whether the page is found and summarised or not;
    without a client nothing is requested and [AttributeError] is
    raised. *)
Theorem get_page_data_one_request (self : ContentfulPage) (page_id : string) :
  (∀ space, client self = Some space →
     (get_page_data self page_id).2 = [EvEntry page_id (Some 5%Z)]) ∧
  (client self = None →
     get_page_data self page_id = (Raise AttributeError, [])).
Proof.
  unfold get_page_data. split.
  - intros space Hc.
    destruct (client_entry self page_id (Some 5%Z)).1 as [page|e] eqn:Hp.
    + rewrite (bind_trace_ok _ _ _ Hp), (client_entry_trace _ _ _ _ Hc).
      by destruct (get_info_data (entry_fields page)).
    + by rewrite (bind_trace_raise _ _ _ Hp), (client_entry_trace _ _ _ _ Hc).
  - intros Hc. by rewrite client_entry_no_client.
Qed.

Lemma get_page_data_one_request_witness :
  (get_page_data demo_page "home").2 = [EvEntry "home" (Some 5%Z)] ∧
  (get_page_data demo_page "nowhere").2 = [EvEntry "nowhere" (Some 5%Z)] ∧
  get_page_data {| client := None; renderer := demo_renderer |} "home"
    = (Raise AttributeError, []).
Proof.
  split; [|split].
  - by apply (get_page_data_one_request demo_page "home") with demo_space.
  - by apply (get_page_data_one_request demo_page "nowhere") with demo_space.
  - by apply (get_page_data_one_request
                {| client := None; renderer := demo_renderer |} "home").
Defined.



(** X7.  [get_content] never returns.  When the page loads it raises
    [TypeError], and when loading fails it raises the loader's error; in
    both cases the only events are those of loading the page, so no
    component is fetched and nothing is rendered. *)
Theorem get_content_never_returns
    (asset_url : dict → Z → Z → string → string → result string)
    (self : ContentfulPage) (page_id : string) :
  get_content asset_url self page_id =
    (match (get_page_data self page_id).1 with
     | Ok _ => Raise TypeError
     | Raise e => Raise e
     end,
     (get_page_data self page_id).2).
Proof.
  unfold get_content.
  destruct (get_page_data self page_id) as [[page_data|e] t] eqn:H; simpl.
  - unfold mbind, M_mbind, M_bind. simpl. by rewrite app_nil_r.
  - done.
Qed.

(** ** Without a client *)

Section no_client.
Variable asset_url : dict → Z → Z → string → string → result string.
Variable self : ContentfulPage.
Hypothesis Hnone : client self = None.

Lemma get_entry_by_id_no_client id :
  get_entry_by_id self id = (Raise AttributeError, []).
Proof. by apply client_entry_no_client. Qed.

Lemma accessors_no_client :
  get_all_page_data self = (Raise AttributeError, []) ∧
  (∀ id, get_page_data self id = (Raise AttributeError, [])) ∧
  (∀ id, get_entry_data self id = (Raise AttributeError, [])) ∧
  (∀ id, get_page_type self id = (Raise AttributeError, [])) ∧
  (∀ id, get_entry_by_id self id = (Raise AttributeError, [])) ∧
  (∀ id, get_content asset_url self id = (Raise AttributeError, [])).
Proof.
  unfold get_all_page_data, client_entries, get_page_data, get_entry_data,
    get_page_type, get_content, get_page_data.
  rewrite Hnone. repeat split; intros; try done;
    by rewrite ?get_entry_by_id_no_client, ?client_entry_no_client.
Qed.

Lemma extractions_no_client :
  (∀ id, get_hero_data self id = (Raise AttributeError, [])) ∧
  (∀ id, get_section_heading_data self id = (Raise AttributeError, [])) ∧
  (∀ id, get_callout_data self id = (Raise AttributeError, [])) ∧
  (∀ id aspect_ratio,
     get_card_data asset_url self id aspect_ratio = (Raise AttributeError, [])) ∧
  (∀ layout_id id,
     get_large_card_data asset_url self layout_id id = (Raise AttributeError, [])) ∧
  (∀ id, get_card_layout_data asset_url self id = (Raise AttributeError, [])) ∧
  (∀ cta id, py_truthy cta = true → val_id cta = Ok id →
     get_cta_data self cta = (Raise AttributeError, [])).
Proof.
  unfold get_hero_data, get_section_heading_data, get_callout_data,
    get_card_data, get_large_card_data, get_card_layout_data, get_cta_data.
  repeat split; intros; try by rewrite get_entry_by_id_no_client.
  rewrite H, H0. unfold mbind at 1, M_mbind at 1, M_bind at 1. cbn [lift fst snd].
  by rewrite get_entry_by_id_no_client.
Qed.

End no_client.

(** X8.  The client exists exactly when a space id is configured.  With
    an empty space id the instance has no client, and every accessor and
    every extraction that needs an entry raises [AttributeError] before
    any request is made. *)
Theorem no_space_id_no_requests
    (asset_url : dict → Z → Z → string → string → result string)
    (settings : Settings)
    (connect : string → string → string → string → list Entry)
    (rich_text_renderer : val → result string) :
  let self := contentful_preview_page settings connect rich_text_renderer in
  (CONTENTFUL_SPACE_ID settings ≠ "" →
     client self =
       Some (connect (CONTENTFUL_SPACE_ID settings) (CONTENTFUL_SPACE_KEY settings)
               "V0" (CONTENTFUL_SPACE_API settings))) ∧
  (CONTENTFUL_SPACE_ID settings = "" →
     client self = None ∧
     get_all_page_data self = (Raise AttributeError, []) ∧
     (∀ id, get_page_data self id = (Raise AttributeError, [])) ∧
     (∀ id, get_page_type self id = (Raise AttributeError, [])) ∧
     (∀ id, get_entry_by_id self id = (Raise AttributeError, [])) ∧
     (∀ id, get_content asset_url self id = (Raise AttributeError, [])) ∧
     (∀ id, get_hero_data self id = (Raise AttributeError, [])) ∧
     (∀ id, get_section_heading_data self id = (Raise AttributeError, [])) ∧
     (∀ id, get_callout_data self id = (Raise AttributeError, [])) ∧
     (∀ id aspect_ratio,
        get_card_data asset_url self id aspect_ratio = (Raise AttributeError, [])) ∧
     (∀ id, get_card_layout_data asset_url self id = (Raise AttributeError, []))).
Proof.
  intros self. split.
  - intros Hid. unfold self, contentful_preview_page, get_client. simpl.
    by destruct (String.eqb_spec (CONTENTFUL_SPACE_ID settings) "").
  - intros Hid.
    assert (client self = None) as Hnone.
    { unfold self, contentful_preview_page, get_client. simpl. by rewrite Hid. }
    destruct (accessors_no_client asset_url self Hnone)
      as (H1 & H2 & _ & H4 & H5 & H6).
    destruct (extractions_no_client asset_url self Hnone)
      as (H7 & H8 & H9 & H10 & _ & H12 & _).
    repeat split; done.
Qed.

Lemma no_space_id_no_requests_witness :
  let off := {| CONTENTFUL_SPACE_ID := ""; CONTENTFUL_SPACE_KEY := "";
                CONTENTFUL_SPACE_API := "cdn.contentful.com" |} in
  let on := {| CONTENTFUL_SPACE_ID := "abc"; CONTENTFUL_SPACE_KEY := "key";
               CONTENTFUL_SPACE_API := "cdn.contentful.com" |} in
  let connect := λ _ _ _ _ : string, demo_space in
  client (contentful_preview_page on connect demo_renderer) = Some demo_space ∧
  get_hero_data (contentful_preview_page off connect demo_renderer) "hero1"
    = (Raise AttributeError, []).
Proof.
  intros off on connect. split.
  - by apply (no_space_id_no_requests demo_asset_url on connect demo_renderer).
  - by apply (no_space_id_no_requests demo_asset_url off connect demo_renderer).
Defined.

(** ** The walker, item by item *)

(** A loop that appends to the entries what each item contributes
    returns the contributions concatenated, in order. *)
Lemma for_each_append_ok {A} (step : A → M (list val))
    (body : list val → A → M (list val)) :
  (∀ entries x r,
     (body entries x).1 = Ok r ↔ ∃ o, (step x).1 = Ok o ∧ r = entries ++ o) →
  ∀ l e0 r,
    (for_each body l e0).1 = Ok r ↔
    ∃ outs, Forall2 (λ x o, (step x).1 = Ok o) l outs ∧ r = e0 ++ concat outs.
Proof.
  intros Hbody. induction l as [|x l IH]; intros e0 r; cbn [for_each].
  - split.
    + intros [= <-]. exists []. split; [constructor|]. by rewrite app_nil_r.
    + intros (outs & ->%Forall2_nil_inv_l & ->). simpl. by rewrite app_nil_r.
  - rewrite bind_ok_iff. split.
    + intros (e1 & (o & Ho & ->)%Hbody & (outs & Houts & ->)%IH).
      exists (o :: outs). split; [by constructor|]. simpl. by rewrite app_assoc.
    + intros (outs & (o & outs' & Ho & Houts & ->)%Forall2_cons_inv_l & ->).
      exists (e0 ++ o). split; [apply Hbody; eauto|].
      apply IH. exists outs'. split; [done|]. simpl. by rewrite app_assoc.
Qed.

Lemma extract_append_ok (r : result string) (g : string → M dict)
    (entries res : list val) :
  (id ← lift r; d ← g id; mret (entries ++ [VDict d])).1 = Ok res ↔
  ∃ o, (id ← lift r; d ← g id; mret [VDict d]).1 = Ok o ∧ res = entries ++ o.
Proof.
  split.
  - intros H. inv_ok H. subst res. eexists. split; [|done].
    do 2 ok_step. done.
  - intros (o & H & ->). inv_ok H. subst o. do 2 ok_step. done.
Qed.

Lemma extract_text_append_ok (g : M dict) (entries res : list val) :
  (d ← g; mret (entries ++ [VDict d])).1 = Ok res ↔
  ∃ o, (d ← g; mret [VDict d]).1 = Ok o ∧ res = entries ++ o.
Proof.
  split.
  - intros H. inv_ok H. subst res. eexists. split; [|done]. by ok_step.
  - intros (o & H & ->). inv_ok H. subst o. by ok_step.
Qed.

Lemma lift_ok_bind {A B} (a : A) (f : A → M B) :
  (lift (Ok a) ≫= f).1 = (f a).1.
Proof. done. Qed.

Lemma skip_append_ok (entries res : list val) :
  (mret entries : M (list val)).1 = Ok res ↔
  ∃ o, (mret [] : M (list val)).1 = Ok o ∧ res = entries ++ o.
Proof.
  split.
  - intros [= <-]. exists []. by rewrite app_nil_r.
  - intros (o & [= <-] & ->). by rewrite app_nil_r.
Qed.

Section walker.
Variable asset_url : dict → Z → Z → string → string → result string.
Variable self : ContentfulPage.

Lemma home_body_ok (entries : list val) (item : val) (r : list val) :
  (content_type ← lift (val_content_type_id item);
   if String.eqb content_type "componentHero" then
     id ← lift (val_id item);
     d ← get_hero_data self id; mret (entries ++ [VDict d])
   else if String.eqb content_type "componentSectionHeading" then
     id ← lift (val_id item);
     d ← get_section_heading_data self id; mret (entries ++ [VDict d])
   else if String.eqb content_type "layoutCallout" then
     id ← lift (val_id item);
     d ← get_callout_data self id; mret (entries ++ [VDict d])
   else if String.eqb content_type "layout2Cards" then
     id ← lift (val_id item);
     d ← get_card_layout_data asset_url self id; mret (entries ++ [VDict d])
   else if String.eqb content_type "layout3Cards" then
     id ← lift (val_id item);
     d ← get_card_layout_data asset_url self id; mret (entries ++ [VDict d])
   else if String.eqb content_type "layout5Cards" then
     id ← lift (val_id item);
     d ← get_card_layout_data asset_url self id; mret (entries ++ [VDict d])
   else mret entries).1 = Ok r ↔
  ∃ o, (home_component asset_url self item).1 = Ok o ∧ r = entries ++ o.
Proof.
  unfold home_component.
  destruct (val_content_type_id item) as [ct|e].
  2: { split; [done|]. by intros (o & H & _). }
  rewrite !lift_ok_bind.
  destruct (String.eqb ct "componentHero"); [apply extract_append_ok|].
  destruct (String.eqb ct "componentSectionHeading"); [apply extract_append_ok|].
  destruct (String.eqb ct "layoutCallout"); [apply extract_append_ok|].
  destruct (String.eqb ct "layout2Cards"); [apply extract_append_ok|].
  destruct (String.eqb ct "layout3Cards"); [apply extract_append_ok|].
  destruct (String.eqb ct "layout5Cards"); [apply extract_append_ok|].
  apply skip_append_ok.
Qed.

Lemma versatile_body_ok (entries : list val) (item : val) (r : list val) :
  (content_type ← lift (val_content_type_id item);
   if String.eqb content_type "componentHero" then
     id ← lift (val_id item);
     d ← get_hero_data self id; mret (entries ++ [VDict d])
   else if String.eqb content_type "layoutCallout" then
     id ← lift (val_id item);
     d ← get_callout_data self id; mret (entries ++ [VDict d])
   else mret entries).1 = Ok r ↔
  ∃ o, (versatile_component self item).1 = Ok o ∧ r = entries ++ o.
Proof.
  unfold versatile_component.
  destruct (val_content_type_id item) as [ct|e].
  2: { split; [done|]. by intros (o & H & _). }
  rewrite !lift_ok_bind.
  destruct (String.eqb ct "componentHero"); [apply extract_append_ok|].
  destruct (String.eqb ct "layoutCallout"); [apply extract_append_ok|].
  apply skip_append_ok.
Qed.

Lemma general_body_ok (entries : list val) (field : string * val) (r : list val) :
  (let '(key, value) := field in
   (if String.eqb key "component_hero" then
      id ← lift (val_id value);
      d ← get_hero_data self id; mret (entries ++ [VDict d])
    else if String.eqb key "body" then
      d ← get_text_data self value; mret (entries ++ [VDict d])
    else if String.eqb key "layout_callout" then
      id ← lift (val_id value);
      d ← get_callout_data self id; mret (entries ++ [VDict d])
    else mret entries) : M (list val)).1 = Ok r ↔
  ∃ o, (general_component self field).1 = Ok o ∧ r = entries ++ o.
Proof.
  unfold general_component. destruct field as [key value]. cbn [fst snd].
  destruct (String.eqb key "component_hero"); [apply extract_append_ok|].
  destruct (String.eqb key "body"); [apply extract_text_append_ok|].
  destruct (String.eqb key "layout_callout"); [apply extract_append_ok|].
  apply skip_append_ok.
Qed.

(** X9.  The walker's entries are, in source order, what each item of
    the page's [content] (each field, for a general page) contributes on
    its own: the output of the extraction its content type (its key)
    selects, or nothing when the type is not one the page kind
    dispatches on.  The walk returns exactly when every item's
    extraction does. *)
Theorem page_entries_in_source_order (fields : val) (entries : list val) :
  ((get_content_entries asset_url self (VStr "pageHome") fields).1 = Ok entries ↔
   ∃ content items outs,
     val_get fields "content" = Ok content ∧ py_iter content = Ok items ∧
     Forall2 (λ item o, (home_component asset_url self item).1 = Ok o) items outs ∧
     entries = concat outs) ∧
  ((get_content_entries asset_url self (VStr "pageVersatile") fields).1 = Ok entries ↔
   ∃ content items outs,
     val_get fields "content" = Ok content ∧ py_iter content = Ok items ∧
     Forall2 (λ item o, (versatile_component self item).1 = Ok o) items outs ∧
     entries = concat outs) ∧
  ((get_content_entries asset_url self (VStr "pageGeneral") fields).1 = Ok entries ↔
   ∃ items outs,
     val_items fields = Ok items ∧
     Forall2 (λ field o, (general_component self field).1 = Ok o) items outs ∧
     entries = concat outs).
Proof.
  unfold get_content_entries. cbn [val_eq_str]. eval_eqb. cbv iota.
  split; [|split].
  - split.
    + intros H. apply lift_bind_ok_iff in H as (content & Hc & H).
      apply lift_bind_ok_iff in H as (items & Hi & H).
      apply (for_each_append_ok (home_component asset_url self) _ home_body_ok)
        in H as (outs & Ho & ->).
      eauto 10.
    + intros (content & items & outs & Hc & Hi & Ho & ->).
      apply lift_bind_ok_iff. exists content. split; [done|].
      apply lift_bind_ok_iff. exists items. split; [done|].
      apply (for_each_append_ok (home_component asset_url self) _ home_body_ok).
      by exists outs.
  - split.
    + intros H. apply lift_bind_ok_iff in H as (content & Hc & H).
      apply lift_bind_ok_iff in H as (items & Hi & H).
      apply (for_each_append_ok (versatile_component self) _ versatile_body_ok)
        in H as (outs & Ho & ->).
      eauto 10.
    + intros (content & items & outs & Hc & Hi & Ho & ->).
      apply lift_bind_ok_iff. exists content. split; [done|].
      apply lift_bind_ok_iff. exists items. split; [done|].
      apply (for_each_append_ok (versatile_component self) _ versatile_body_ok).
      by exists outs.
  - split.
    + intros H. apply lift_bind_ok_iff in H as (items & Hi & H).
      apply (for_each_append_ok (general_component self) _ general_body_ok)
        in H as (outs & Ho & ->).
      eauto 10.
    + intros (items & outs & Hi & Ho & ->).
      apply lift_bind_ok_iff. exists items. split; [done|].
      apply (for_each_append_ok (general_component self) _ general_body_ok).
      by exists outs.
Qed.

End walker.

Lemma concat_singletons {A B} (Q : A → list B → Prop) (P : B → Prop)
    (l : list A) (outs : list (list B)) :
  (∀ x o, Q x o → (length o ≤ 1)%nat ∧ Forall P o) →
  Forall2 Q l outs →
  Forall P (concat outs) ∧ (length (concat outs) ≤ length l)%nat.
Proof.
  intros HQ. induction 1 as [|x o l outs Hxo _ [IHP IHl]]; simpl.
  - split; [constructor|lia].
  - destruct (HQ _ _ Hxo) as [Hlen HP]. split.
    + by apply Forall_app.
    + rewrite length_app. lia.
Qed.

Section walker_outputs.
Variable asset_url : dict → Z → Z → string → string → result string.
Variable self : ContentfulPage.

Lemma extract_out (r : result string) (g : string → M dict) (c : string) o :
  (∀ id d, (g id).1 = Ok d → dict_lookup d "component" = Some (VStr c)) →
  (id ← lift r; d ← g id; mret [VDict d]).1 = Ok o →
  (length o ≤ 1)%nat ∧ Forall (λ e, entry_component e = Some c) o.
Proof.
  intros Hg H. inv_ok H. subst o. split; [simpl; lia|].
  repeat constructor. simpl. by rewrite (Hg _ _ E0).
Qed.

Lemma hero_tag id d :
  (get_hero_data self id).1 = Ok d → dict_lookup d "component" = Some (VStr "hero").
Proof. apply get_hero_data_component. Qed.

Lemma section_heading_tag id d :
  (get_section_heading_data self id).1 = Ok d →
  dict_lookup d "component" = Some (VStr "sectionHeading").
Proof. by intros (? & _ & ->)%get_section_heading_data_ok. Qed.

Lemma callout_tag id d :
  (get_callout_data self id).1 = Ok d →
  dict_lookup d "component" = Some (VStr "callout").
Proof.
  by intros (? & ? & ? & ? & ? & ? & _ & _ & _ & _ & _ & _ & ->)%get_callout_data_ok.
Qed.

Lemma card_layout_tag id d :
  (get_card_layout_data asset_url self id).1 = Ok d →
  dict_lookup d "component" = Some (VStr "cardLayout").
Proof. by intros (? & ? & ? & _ & _ & ->)%get_card_layout_data_shape. Qed.

Lemma home_component_out item o :
  (home_component asset_url self item).1 = Ok o →
  (length o ≤ 1)%nat ∧
  Forall (λ e, ∃ c, entry_component e = Some c ∧
                    c ∈ ["hero"; "sectionHeading"; "callout"; "cardLayout"]) o.
Proof.
  unfold home_component. intros H.
  apply lift_bind_ok_iff in H as (ct & _ & H). revert H.
  destruct (String.eqb ct "componentHero").
  { intros [? H]%(extract_out _ _ "hero" _ hero_tag). split; [done|].
    eapply Forall_impl; [exact H|]. intros e He. exists "hero". split; [done|set_solver]. }
  destruct (String.eqb ct "componentSectionHeading").
  { intros [? H]%(extract_out _ _ "sectionHeading" _ section_heading_tag).
    split; [done|]. eapply Forall_impl; [exact H|].
    intros e He. exists "sectionHeading". split; [done|set_solver]. }
  destruct (String.eqb ct "layoutCallout").
  { intros [? H]%(extract_out _ _ "callout" _ callout_tag). split; [done|].
    eapply Forall_impl; [exact H|].
    intros e He. exists "callout". split; [done|set_solver]. }
  destruct (_ || _).
  { intros [? H]%(extract_out _ _ "cardLayout" _ card_layout_tag). split; [done|].
    eapply Forall_impl; [exact H|].
    intros e He. exists "cardLayout". split; [done|set_solver]. }
  intros [= <-]. split; [simpl; lia|constructor].
Qed.

Lemma versatile_component_out item o :
  (versatile_component self item).1 = Ok o →
  (length o ≤ 1)%nat ∧
  Forall (λ e, ∃ c, entry_component e = Some c ∧ c ∈ ["hero"; "callout"]) o.
Proof.
  unfold versatile_component. intros H.
  apply lift_bind_ok_iff in H as (ct & _ & H). revert H.
  destruct (String.eqb ct "componentHero").
  { intros [? H]%(extract_out _ _ "hero" _ hero_tag). split; [done|].
    eapply Forall_impl; [exact H|]. intros e He. exists "hero". split; [done|set_solver]. }
  destruct (String.eqb ct "layoutCallout").
  { intros [? H]%(extract_out _ _ "callout" _ callout_tag). split; [done|].
    eapply Forall_impl; [exact H|].
    intros e He. exists "callout". split; [done|set_solver]. }
  intros [= <-]. split; [simpl; lia|constructor].
Qed.

Lemma general_component_out field o :
  (general_component self field).1 = Ok o →
  (length o ≤ 1)%nat ∧
  Forall (λ e, ∃ c, entry_component e = Some c ∧ c ∈ ["hero"; "text"; "callout"]) o.
Proof.
  unfold general_component.
  destruct (String.eqb field.1 "component_hero").
  { intros [? H]%(extract_out _ _ "hero" _ hero_tag). split; [done|].
    eapply Forall_impl; [exact H|]. intros e He. exists "hero". split; [done|set_solver]. }
  destruct (String.eqb field.1 "body").
  { intros H. inv_ok H. subst o. split; [simpl; lia|].
    apply get_text_data_ok in E as (body & _ & ->).
    repeat constructor. exists "text". split; [done|set_solver]. }
  destruct (String.eqb field.1 "layout_callout").
  { intros [? H]%(extract_out _ _ "callout" _ callout_tag). split; [done|].
    eapply Forall_impl; [exact H|].
    intros e He. exists "callout". split; [done|set_solver]. }
  intros [= <-]. split; [simpl; lia|constructor].
Qed.

(** X10.  Whatever the page holds, every entry the walker returns is a
    mapping tagged with a [component] the page kind can produce (hero,
    section heading, callout or card layout on a home page; hero or
    callout on a versatile page, which never yields a card layout; hero,
    text or callout on a general page), and there are at most as many
    entries as content items (fields, for a general page). *)
Theorem page_entries_components (fields : val) (entries : list val) :
  ((get_content_entries asset_url self (VStr "pageHome") fields).1 = Ok entries →
   Forall (λ e, ∃ c, entry_component e = Some c ∧
                     c ∈ ["hero"; "sectionHeading"; "callout"; "cardLayout"])
     entries ∧
   ∃ content items, val_get fields "content" = Ok content ∧
                    py_iter content = Ok items ∧ (length entries ≤ length items)%nat) ∧
  ((get_content_entries asset_url self (VStr "pageVersatile") fields).1 = Ok entries →
   Forall (λ e, ∃ c, entry_component e = Some c ∧ c ∈ ["hero"; "callout"]) entries ∧
   ∃ content items, val_get fields "content" = Ok content ∧
                    py_iter content = Ok items ∧ (length entries ≤ length items)%nat) ∧
  ((get_content_entries asset_url self (VStr "pageGeneral") fields).1 = Ok entries →
   Forall (λ e, ∃ c, entry_component e = Some c ∧ c ∈ ["hero"; "text"; "callout"])
     entries ∧
   ∃ items, val_items fields = Ok items ∧ (length entries ≤ length items)%nat).
Proof.
  unfold get_content_entries. cbn [val_eq_str]. eval_eqb. cbv iota.
  split; [|split].
  - intros H. apply lift_bind_ok_iff in H as (content & Hc & H).
    apply lift_bind_ok_iff in H as (items & Hi & H).
    apply (for_each_append_ok (home_component asset_url self) _
             (home_body_ok asset_url self)) in H as (outs & Ho & ->).
    destruct (concat_singletons _ _ _ _ home_component_out Ho) as [HP Hlen].
    split; [done|]. by exists content, items.
  - intros H. apply lift_bind_ok_iff in H as (content & Hc & H).
    apply lift_bind_ok_iff in H as (items & Hi & H).
    apply (for_each_append_ok (versatile_component self) _
             (versatile_body_ok self)) in H as (outs & Ho & ->).
    destruct (concat_singletons _ _ _ _ versatile_component_out Ho) as [HP Hlen].
    split; [done|]. by exists content, items.
  - intros H. apply lift_bind_ok_iff in H as (items & Hi & H).
    apply (for_each_append_ok (general_component self) _
             (general_body_ok self)) in H as (outs & Ho & ->).
    destruct (concat_singletons _ _ _ _ general_component_out Ho) as [HP Hlen].
    split; [done|]. by exists items.
Qed.

End walker_outputs.

Lemma page_entries_components_witness :
  ∃ entries,
    (get_content_entries demo_asset_url demo_page (VStr "pageVersatile")
       (VDict [("content", VList [VEntry "hero1" "componentHero" [];
                                  VEntry "three" "layout3Cards" [];
                                  VEntry "callout1" "layoutCallout" []])])).1
      = Ok entries ∧
    Forall (λ e, ∃ c, entry_component e = Some c ∧ c ∈ ["hero"; "callout"]) entries ∧
    length entries = 2%nat.
Proof.
  eexists. split; [vm_compute; reflexivity|]. split; [|reflexivity].
  apply (page_entries_components demo_asset_url demo_page
           (VDict [("content", VList [VEntry "hero1" "componentHero" [];
                                      VEntry "three" "layout3Cards" [];
                                      VEntry "callout1" "layoutCallout" []])])).
  vm_compute; reflexivity.
Defined.

(** X11.  Edge cases of the walk.  A page type other than the three
    known ones gives no entries, with no request and no error.  A home or
    versatile page whose fields mapping has no [content] raises
    [TypeError] before any request; an empty [content] gives no entries;
    and when some item of the content is not an entry (an unresolved
    link, an asset, [None]) the walk raises instead of returning. *)
Theorem page_walk_edges
    (asset_url : dict → Z → Z → string → string → result string)
    (self : ContentfulPage) (page_type : val) (fields : dict) :
  (val_eq_str page_type "pageGeneral" = false →
   val_eq_str page_type "pageVersatile" = false →
   val_eq_str page_type "pageHome" = false →
   ∀ any, get_content_entries asset_url self page_type any = (Ok [], [])) ∧
  (page_type = VStr "pageHome" ∨ page_type = VStr "pageVersatile" →
   (dict_get fields "content" = VNone →
      get_content_entries asset_url self page_type (VDict fields)
        = (Raise TypeError, [])) ∧
   (dict_get fields "content" = VList [] →
      get_content_entries asset_url self page_type (VDict fields) = (Ok [], [])) ∧
   (∀ items item e,
      dict_get fields "content" = VList items →
      item ∈ items → val_content_type_id item = Raise e →
      raises (get_content_entries asset_url self page_type (VDict fields)).1)).
Proof.
  split.
  - intros H1 H2 H3 any. unfold get_content_entries. by rewrite H1, H2, H3.
  - intros Hpt. split; [|split].
    + intros Hc. unfold get_content_entries.
      destruct Hpt as [-> | ->]; cbn [val_eq_str]; eval_eqb; cbv iota;
        cbn [val_get lift]; by rewrite Hc.
    + intros Hc. unfold get_content_entries.
      destruct Hpt as [-> | ->]; cbn [val_eq_str]; eval_eqb; cbv iota;
        cbn [val_get lift]; by rewrite Hc.
    + intros items item e Hc Hin He.
      destruct (get_content_entries _ _ _ _).1 as [entries|] eqn:H; [|done].
      exfalso. destruct Hpt as [-> | ->].
      * unfold get_content_entries in H. cbn [val_eq_str] in H.
        eval_eqb_in H. cbv iota in H.
        apply lift_bind_ok_iff in H as (content & [= <-] & H). rewrite Hc in H.
        apply lift_bind_ok_iff in H as (items' & [= <-] & H).
        apply (for_each_append_ok (home_component asset_url self) _
                 (home_body_ok asset_url self)) in H as (outs & Ho & _).
        apply list_elem_of_lookup in Hin as [i Hi].
        destruct (Forall2_lookup_l _ _ _ _ _ Ho Hi) as (o & _ & Hitem).
        unfold home_component in Hitem. by rewrite He in Hitem.
      * unfold get_content_entries in H. cbn [val_eq_str] in H.
        eval_eqb_in H. cbv iota in H.
        apply lift_bind_ok_iff in H as (content & [= <-] & H). rewrite Hc in H.
        apply lift_bind_ok_iff in H as (items' & [= <-] & H).
        apply (for_each_append_ok (versatile_component self) _
                 (versatile_body_ok self)) in H as (outs & Ho & _).
        apply list_elem_of_lookup in Hin as [i Hi].
        destruct (Forall2_lookup_l _ _ _ _ _ Ho Hi) as (o & _ & Hitem).
        unfold versatile_component in Hitem. by rewrite He in Hitem.
Qed.

Lemma page_walk_edges_witness :
  get_content_entries demo_asset_url demo_page (VStr "pageLanding")
    (VDict [("content", VList [VEntry "hero1" "componentHero" []])]) = (Ok [], []) ∧
  get_content_entries demo_asset_url demo_page (VStr "pageHome")
    (VDict [("preview_title", VStr "t")]) = (Raise TypeError, []) ∧
  get_content_entries demo_asset_url demo_page (VStr "pageHome")
    (VDict [("content", VList [])]) = (Ok [], []) ∧
  raises (get_content_entries demo_asset_url demo_page (VStr "pageHome")
            (VDict [("content", VList [VEntry "hero1" "componentHero" [];
                                       VLink "three"])])).1.
Proof.
  split; [|split; [|split]].
  - apply (proj1 (page_walk_edges demo_asset_url demo_page
                    (VStr "pageLanding") [])); reflexivity.
  - destruct (page_walk_edges demo_asset_url demo_page (VStr "pageHome")
                [("preview_title", VStr "t")]) as [_ H].
    destruct (H (or_introl eq_refl)) as (Hnone & _ & _).
    apply Hnone. reflexivity.
  - destruct (page_walk_edges demo_asset_url demo_page (VStr "pageHome")
                [("content", VList [])]) as [_ H].
    destruct (H (or_introl eq_refl)) as (_ & Hempty & _).
    apply Hempty. reflexivity.
  - destruct (page_walk_edges demo_asset_url demo_page (VStr "pageHome")
                [("content", VList [VEntry "hero1" "componentHero" [];
                                    VLink "three"])]) as [_ H].
    destruct (H (or_introl eq_refl)) as (_ & _ & Hitem).
    apply (Hitem _ (VLink "three") AttributeError eq_refl); [|reflexivity].
    apply list_elem_of_further, list_elem_of_here.
Defined.

(** ** Card layouts without a large card *)

(** X12.  For a layout of any type but [layout5Cards] the [large_card]
    field plays no part: the extraction returns exactly when the card of
    every content item can be extracted at the layout's aspect ratio, its
    [cards] are those cards in source order, one per item, and its
    layout class is the table's for the layout's type, or the empty
    string for a type the table does not know. *)
Theorem plain_card_layout_cards
    (asset_url : dict → Z → Z → string → string → result string)
    (self : ContentfulPage) (layout_id : string) (config : Entry) :
  (get_entry_by_id self layout_id).1 = Ok config →
  entry_content_type config ≠ "layout5Cards" →
  ∀ d, (get_card_layout_data asset_url self layout_id).1 = Ok d ↔
    ∃ items cards,
      py_iter (dict_get (entry_fields config) "content") = Ok items ∧
      cards_of asset_url self (dict_get (entry_fields config) "aspect_ratio")
        items cards ∧
      length cards = length items ∧
      d = [("component", VStr "cardLayout");
           ("layout_class",
            VStr (default "" (LAYOUT_CLASS !! entry_content_type config)));
           ("aspect_ratio", dict_get (entry_fields config) "aspect_ratio");
           ("cards", VList (VDict <$> cards))].
Proof.
  intros Hconfig Hty d. unfold get_card_layout_data.
  apply String.eqb_neq in Hty. split.
  - intros H. apply bind_ok_iff in H as (config' & Hc' & H).
    assert (config' = config) as -> by congruence.
    rewrite Hty in H.
    apply lift_bind_ok_iff in H as (cls & [= <-] & H).
    apply bind_ok_iff in H as (d1 & [= <-] & H).
    apply lift_bind_ok_iff in H as (items & Hitems & H).
    eapply (for_each_cards_ok _ _ _ _ _ []) in H as (cards & Hcards & ->); [|done].
    exists items, cards. split; [done|]. split; [done|].
    split; [symmetry; by eapply Forall2_length|done].
  - intros (items & cards & Hitems & Hcards & _ & ->).
    ok_step. rewrite Hty.
    apply lift_bind_ok_iff. eexists. split; [reflexivity|].
    apply bind_ok_iff. eexists. split; [reflexivity|].
    ok_step. eapply (for_each_cards_ok _ _ _ _ _ []); [done|].
    by exists cards.
Qed.

Lemma plain_card_layout_cards_witness :
  ∃ config d items cards,
    (get_entry_by_id demo_page "three").1 = Ok config ∧
    (get_card_layout_data demo_asset_url demo_page "three").1 = Ok d ∧
    py_iter (dict_get (entry_fields config) "content") = Ok items ∧
    cards_of demo_asset_url demo_page
      (dict_get (entry_fields config) "aspect_ratio") items cards ∧
    length cards = length items ∧
    d = [("component", VStr "cardLayout");
         ("layout_class",
          VStr (default "" (LAYOUT_CLASS !! entry_content_type config)));
         ("aspect_ratio", dict_get (entry_fields config) "aspect_ratio");
         ("cards", VList (VDict <$> cards))].
Proof.
  eexists _, _.
  assert ((get_entry_by_id demo_page "three").1 = Ok _) as Hc
    by (vm_compute; reflexivity).
  assert ((get_card_layout_data demo_asset_url demo_page "three").1 = Ok _) as Hd
    by (vm_compute; reflexivity).
  destruct (proj1 (plain_card_layout_cards demo_asset_url demo_page "three" _
                     Hc ltac:(discriminate) _) Hd) as (items & cards & H).
  exists items, cards. split; [exact Hc|]. split; [exact Hd|exact H].
Defined.

(** ** One request per entry *)

Lemma fetched_app (t1 t2 : list event) :
  fetched (t1 ++ t2) = fetched t1 ++ fetched t2.
Proof. apply omap_app. Qed.

Lemma rendered_app (t1 t2 : list event) :
  rendered (t1 ++ t2) = rendered t1 ++ rendered t2.
Proof. apply omap_app. Qed.

Lemma lift_bind_trace {A B} (r : result A) (f : A → M B) a :
  r = Ok a → (lift r ≫= f).2 = (f a).2.
Proof. by intros ->. Qed.

Lemma get_entry_by_id_trace (self : ContentfulPage) id e :
  (get_entry_by_id self id).1 = Ok e →
  (get_entry_by_id self id).2 = [EvEntry id None].
Proof.
  unfold get_entry_by_id. intros H. apply client_entry_ok in H as [H _].
  by rewrite H.
Qed.

Lemma render_body_if_present_eq (self : ContentfulPage) (fields : dict) :
  render_body_if_present self fields =
    if py_truthy (dict_get fields "body")
    then (renderer self (dict_get fields "body"), [EvRender (dict_get fields "body")])
    else (Ok "", []).
Proof.
  unfold render_body_if_present, render. destruct (py_truthy _); [|done].
  unfold mbind, M_mbind, M_bind, emit, lift. simpl.
  by destruct (renderer self _).
Qed.

Lemma render_body_if_present_fetched (self : ContentfulPage) (fields : dict) :
  fetched (render_body_if_present self fields).2 = [].
Proof. rewrite render_body_if_present_eq. by destruct (py_truthy _). Qed.

Section requests.
Variable asset_url : dict → Z → Z → string → string → result string.
Variable self : ContentfulPage.

Lemma get_card_data_fetched card_id aspect_ratio d :
  (get_card_data asset_url self card_id aspect_ratio).1 = Ok d →
  fetched (get_card_data asset_url self card_id aspect_ratio).2 = [card_id].
Proof.
  unfold get_card_data. intros H.
  apply bind_ok_iff in H as (card & Hcard & H).
  rewrite (bind_trace_ok _ _ _ Hcard), (get_entry_by_id_trace _ _ _ Hcard).
  apply bind_ok_iff in H as (body & Hbody & H).
  rewrite (bind_trace_ok _ _ _ Hbody), !fetched_app, render_body_if_present_fetched.
  apply lift_bind_ok_iff in H as (u1 & Hu1 & H). rewrite (lift_bind_trace _ _ _ Hu1).
  apply lift_bind_ok_iff in H as (u2 & Hu2 & H). rewrite (lift_bind_trace _ _ _ Hu2).
  apply lift_bind_ok_iff in H as (cls & Hcls & H). by rewrite (lift_bind_trace _ _ _ Hcls).
Qed.

Lemma get_large_card_data_fetched card_layout_id card_id d :
  (get_large_card_data asset_url self card_layout_id card_id).1 = Ok d →
  fetched (get_large_card_data asset_url self card_layout_id card_id).2
    = [card_layout_id; card_id].
Proof.
  unfold get_large_card_data. intros H.
  apply bind_ok_iff in H as (layout & Hlayout & H).
  rewrite (bind_trace_ok _ _ _ Hlayout), (get_entry_by_id_trace _ _ _ Hlayout).
  apply lift_bind_ok_iff in H as (u1 & Hu1 & H). rewrite (lift_bind_trace _ _ _ Hu1).
  apply lift_bind_ok_iff in H as (u2 & Hu2 & H). rewrite (lift_bind_trace _ _ _ Hu2).
  apply bind_ok_iff in H as (card & Hcard & H).
  rewrite (bind_trace_ok _ _ _ Hcard), !fetched_app.
  rewrite (get_card_data_fetched _ _ _ Hcard). done.
Qed.

Lemma for_each_cards_fetched aspect_ratio items : ∀ d0 d,
  (for_each (λ card_layout_data card,
       card_id ← lift (val_id card);
       card_data ← get_card_data asset_url self card_id aspect_ratio;
       lift (cards_append card_layout_data (VDict card_data)))
     items d0).1 = Ok d →
  ∃ ids, Forall2 (λ item id, val_id item = Ok id) items ids ∧
  fetched (for_each (λ card_layout_data card,
       card_id ← lift (val_id card);
       card_data ← get_card_data asset_url self card_id aspect_ratio;
       lift (cards_append card_layout_data (VDict card_data)))
     items d0).2 = ids.
Proof.
  induction items as [|item items IH]; intros d0 d; cbn [for_each].
  - intros _. exists []. split; [constructor|done].
  - intros H. apply bind_ok_iff in H as (d1 & H1 & H).
    rewrite (bind_trace_ok _ _ _ H1), fetched_app.
    destruct (IH _ _ H) as (ids & Hids & ->).
    apply lift_bind_ok_iff in H1 as (id & Hid & H1).
    rewrite (lift_bind_trace _ _ _ Hid).
    apply bind_ok_iff in H1 as (card & Hcard & H1).
    rewrite (bind_trace_ok _ _ _ Hcard), fetched_app, (get_card_data_fetched _ _ _ Hcard).
    exists (id :: ids). split; [by constructor|].
    simpl. by destruct (cards_append d0 (VDict card)).
Qed.

(** X13.  Extracting a card layout fetches entries one at a time and
    nothing in bulk: when it returns, the requests made are, in order,
    the layout itself, then for a five-card layout the large-card
    configuration and its card, then one request per content item, by
    the item's id. *)
Theorem card_layout_requests (layout_id : string) (d : dict) :
  (get_card_layout_data asset_url self layout_id).1 = Ok d →
  ∃ config items ids large_ids,
    (get_entry_by_id self layout_id).1 = Ok config ∧
    py_iter (dict_get (entry_fields config) "content") = Ok items ∧
    Forall2 (λ item id, val_id item = Ok id) items ids ∧
    (if String.eqb (entry_content_type config) "layout5Cards" then
       ∃ card_layout_id large_card_fields card_id,
         val_id (dict_get (entry_fields config) "large_card") = Ok card_layout_id ∧
         val_fields (dict_get (entry_fields config) "large_card")
           = Ok large_card_fields ∧
         val_id (dict_get large_card_fields "card") = Ok card_id ∧
         large_ids = [card_layout_id; card_id]
     else large_ids = []) ∧
    fetched (get_card_layout_data asset_url self layout_id).2
      = layout_id :: large_ids ++ ids.
Proof.
  unfold get_card_layout_data. intros H.
  apply bind_ok_iff in H as (config & Hconfig & H).
  rewrite (bind_trace_ok _ _ _ Hconfig), (get_entry_by_id_trace _ _ _ Hconfig).
  apply lift_bind_ok_iff in H as (cls & Hcls & H). rewrite (lift_bind_trace _ _ _ Hcls).
  apply bind_ok_iff in H as (d1 & H1 & H).
  rewrite (bind_trace_ok _ _ _ H1).
  apply lift_bind_ok_iff in H as (items & Hitems & H).
  rewrite (lift_bind_trace _ _ _ Hitems).
  destruct (for_each_cards_fetched _ _ _ _ H) as (ids & Hids & Hf).
  exists config, items, ids.
  destruct (String.eqb (entry_content_type config) "layout5Cards").
  - apply lift_bind_ok_iff in H1 as (lid & Hlid & H1).
    apply lift_bind_ok_iff in H1 as (lf & Hlf & H1).
    apply lift_bind_ok_iff in H1 as (cid & Hcid & H1).
    apply bind_ok_iff in H1 as (large & Hlarge & H1).
    exists [lid; cid]. split; [done|]. split; [done|]. split; [done|].
    split; [by exists lid, lf, cid|].
    rewrite (lift_bind_trace _ _ _ Hlid), (lift_bind_trace _ _ _ Hlf),
      (lift_bind_trace _ _ _ Hcid), (bind_trace_ok _ _ _ Hlarge).
    rewrite !fetched_app, Hf, (get_large_card_data_fetched _ _ _ Hlarge).
    simpl. by destruct (cards_append _ _).
  - exists []. split; [done|]. split; [done|]. split; [done|]. split; [done|].
    rewrite !fetched_app, Hf. done.
Qed.

End requests.

Lemma card_layout_requests_witness :
  ∃ d, (get_card_layout_data demo_asset_url demo_page "five").1 = Ok d ∧
    ∃ config items ids large_ids,
      (get_entry_by_id demo_page "five").1 = Ok config ∧
      py_iter (dict_get (entry_fields config) "content") = Ok items ∧
      Forall2 (λ item id, val_id item = Ok id) items ids ∧
      (if String.eqb (entry_content_type config) "layout5Cards" then
         ∃ card_layout_id large_card_fields card_id,
           val_id (dict_get (entry_fields config) "large_card") = Ok card_layout_id ∧
           val_fields (dict_get (entry_fields config) "large_card")
             = Ok large_card_fields ∧
           val_id (dict_get large_card_fields "card") = Ok card_id ∧
           large_ids = [card_layout_id; card_id]
       else large_ids = []) ∧
      fetched (get_card_layout_data demo_asset_url demo_page "five").2
        = "five" :: large_ids ++ ids.
Proof.
  eexists. split; [vm_compute; reflexivity|].
  eapply (card_layout_requests demo_asset_url demo_page "five").
  vm_compute; reflexivity.
Defined.

(** ** Missing required fields *)

Lemma bind_ok_eq {A B} (m : M A) (f : A → M B) a t :
  m = (Ok a, t) → m ≫= f = ((f a).1, t ++ (f a).2).
Proof. by intros ->. Qed.

Lemma get_entry_by_id_eq (self : ContentfulPage) id e :
  (get_entry_by_id self id).1 = Ok e →
  get_entry_by_id self id = (Ok e, [EvEntry id None]).
Proof. unfold get_entry_by_id. by intros [H _]%client_entry_ok. Qed.

Lemma get_entry_by_id_raise_eq (self : ContentfulPage) space id e :
  client self = Some space →
  (get_entry_by_id self id).1 = Raise e →
  get_entry_by_id self id = (Raise e, [EvEntry id None]).
Proof.
  unfold get_entry_by_id. intros Hc H.
  rewrite (surjective_pairing (client_entry self id None)), H.
  by rewrite (client_entry_trace _ _ _ _ Hc).
Qed.

Lemma get_entry_by_id_client (self : ContentfulPage) id e :
  (get_entry_by_id self id).1 = Ok e → ∃ space, client self = Some space.
Proof.
  unfold get_entry_by_id, client_entry. destruct (client self); [eauto|done].
Qed.

(** X14.  A hero whose entry has no [image] field raises
    [KeyError('image')] right after its one request, before anything is
    rendered.  A callout whose configuration has no usable
    [component_callout] reference raises [AttributeError] after that
    one request; and when the referenced content entry cannot be
    fetched, the client's error is raised after exactly the two
    requests. *)
Theorem hero_callout_missing_references (self : ContentfulPage) :
  (∀ hero_id hero,
     (get_entry_by_id self hero_id).1 = Ok hero →
     dict_lookup (entry_fields hero) "image" = None →
     get_hero_data self hero_id = (Raise (KeyError "image"), [EvEntry hero_id None])) ∧
  (∀ callout_id config,
     (get_entry_by_id self callout_id).1 = Ok config →
     dict_get (entry_fields config) "component_callout" = VNone →
     get_callout_data self callout_id
       = (Raise AttributeError, [EvEntry callout_id None])) ∧
  (∀ callout_id config content_id e,
     (get_entry_by_id self callout_id).1 = Ok config →
     val_id (dict_get (entry_fields config) "component_callout") = Ok content_id →
     (get_entry_by_id self content_id).1 = Raise e →
     get_callout_data self callout_id
       = (Raise e, [EvEntry callout_id None; EvEntry content_id None])).
Proof.
  split; [|split].
  - intros hero_id hero Hhero Himg. unfold get_hero_data.
    rewrite (bind_ok_eq _ _ _ _ (get_entry_by_id_eq _ _ _ Hhero)).
    unfold dict_getitem. by rewrite Himg.
  - intros callout_id config Hconfig Href. unfold get_callout_data.
    rewrite (bind_ok_eq _ _ _ _ (get_entry_by_id_eq _ _ _ Hconfig)).
    by rewrite Href.
  - intros callout_id config content_id e Hconfig Href Hcontent.
    destruct (get_entry_by_id_client _ _ _ Hconfig) as [space Hspace].
    unfold get_callout_data.
    rewrite (bind_ok_eq _ _ _ _ (get_entry_by_id_eq _ _ _ Hconfig)).
    rewrite Href. cbn [lift].
    rewrite (bind_ok_eq (Ok content_id, []) _ _ _ eq_refl).
    by rewrite (bind_raise_eq _ _ _ _
                  (get_entry_by_id_raise_eq _ _ _ _ Hspace Hcontent)).
Qed.

Lemma hero_callout_missing_references_witness :
  let space :=
    [ {| entry_id := "h"; entry_content_type := "componentHero";
         entry_fields := [("heading", VStr "No picture")] |};
      {| entry_id := "c"; entry_content_type := "layoutCallout";
         entry_fields := [("theme", VStr "Dark")] |};
      {| entry_id := "c2"; entry_content_type := "layoutCallout";
         entry_fields := [("component_callout", VLink "gone")] |} ] in
  let self := {| client := Some space; renderer := demo_renderer |} in
  get_hero_data self "h" = (Raise (KeyError "image"), [EvEntry "h" None]) ∧
  get_callout_data self "c" = (Raise AttributeError, [EvEntry "c" None]) ∧
  get_callout_data self "c2"
    = (Raise (EntryNotFound "gone"), [EvEntry "c2" None; EvEntry "gone" None]).
Proof.
  intros space self.
  destruct (hero_callout_missing_references self) as (Hh & Hc & Hc2).
  split; [|split].
  - by apply (Hh "h" {| entry_id := "h"; entry_content_type := "componentHero";
                        entry_fields := [("heading", VStr "No picture")] |}).
  - by apply (Hc "c" {| entry_id := "c"; entry_content_type := "layoutCallout";
                        entry_fields := [("theme", VStr "Dark")] |}).
  - by apply (Hc2 "c2" {| entry_id := "c2"; entry_content_type := "layoutCallout";
                          entry_fields := [("component_callout", VLink "gone")] |}
                "gone").
Defined.



(** X16.  A truthy call-to-action value that is no reference (it has no
    [id]) raises [AttributeError] without any request; a reference whose
    entry cannot be fetched raises the client's error after that one
    request. *)
Theorem cta_reference_errors (self : ContentfulPage) (cta : val) :
  py_truthy cta = true →
  (∀ e, val_id cta = Raise e → get_cta_data self cta = (Raise AttributeError, [])) ∧
  (∀ space cta_id e,
     client self = Some space →
     val_id cta = Ok cta_id →
     (get_entry_by_id self cta_id).1 = Raise e →
     get_cta_data self cta = (Raise e, [EvEntry cta_id None])).
Proof.
  intros Ht. unfold get_cta_data. rewrite Ht. split.
  - intros e He. by destruct cta.
  - intros space cta_id e Hspace Hid Hfetch. rewrite Hid. cbn [lift].
    rewrite (bind_ok_eq (Ok cta_id, []) _ _ _ eq_refl).
    by rewrite (bind_raise_eq _ _ _ _
                  (get_entry_by_id_raise_eq _ _ _ _ Hspace Hfetch)).
Qed.

Lemma cta_reference_errors_witness :
  get_cta_data demo_page (VStr "download") = (Raise AttributeError, []) ∧
  get_cta_data demo_page (VLink "gone")
    = (Raise (EntryNotFound "gone"), [EvEntry "gone" None]).
Proof.
  split.
  - by apply (proj1 (cta_reference_errors demo_page (VStr "download") eq_refl)
                AttributeError).
  - by apply (proj2 (cta_reference_errors demo_page (VLink "gone") eq_refl)
                demo_space "gone").
Defined.

(** ** What gets rendered *)

Lemma rendered_no_render (t : list event) :
  Forall (λ ev, is_render ev = false) t → rendered t = [].
Proof.
  induction 1 as [|ev t Hev _ IH]; [done|].
  destruct ev; [exact IH|exact IH|discriminate Hev].
Qed.

Lemma rendered_cons_entry id inc (t : list event) :
  rendered (EvEntry id inc :: t) = rendered t.
Proof. done. Qed.

Lemma rendered_cons_render v (t : list event) :
  rendered (EvRender v :: t) = v :: rendered t.
Proof. done. Qed.

Lemma render_eq (self : ContentfulPage) (v : val) :
  render self v = (renderer self v, [EvRender v]).
Proof.
  unfold render, mbind, M_mbind, M_bind, emit, lift. simpl.
  by destruct (renderer self v).
Qed.

Lemma bind_pair_trace {A B} (r : result A) (t : list event) (f : A → M B) :
  ((r, t) ≫= f).2 = t ++ match r with Ok a => (f a).2 | Raise _ => [] end.
Proof.
  unfold mbind, M_mbind, M_bind. destruct r; simpl; [done|by rewrite app_nil_r].
Qed.

(** X17.  Hero extraction has no guard on its body: once the image URL
    is resolved it hands [fields.get('body')] to the renderer exactly
    once, [None] for an absent body included.  If the renderer raises on
    it the hero raises the same error after its one request, and
    otherwise the hero's [body] is the renderer's output. *)
Theorem hero_renders_unconditionally (self : ContentfulPage)
    (hero_id : string) (hero : Entry) (image : val) (image_fields : dict)
    (url : val) :
  (get_entry_by_id self hero_id).1 = Ok hero →
  dict_getitem (entry_fields hero) "image" = Ok image →
  val_fields image = Ok image_fields →
  val_get (dict_get image_fields "file") "url" = Ok url →
  rendered (get_hero_data self hero_id).2 = [dict_get (entry_fields hero) "body"] ∧
  (∀ e, renderer self (dict_get (entry_fields hero) "body") = Raise e →
        get_hero_data self hero_id
          = (Raise e, [EvEntry hero_id None;
                       EvRender (dict_get (entry_fields hero) "body")])) ∧
  (∀ d, (get_hero_data self hero_id).1 = Ok d →
        ∃ html, renderer self (dict_get (entry_fields hero) "body") = Ok html ∧
                dict_lookup d "body" = Some (VStr html)).
Proof.
  intros Hhero Himage Hfields Hurl. unfold get_hero_data.
  rewrite (bind_ok_eq _ _ _ _ (get_entry_by_id_eq _ _ _ Hhero)).
  rewrite Himage. cbn [lift].
  rewrite (bind_ok_eq (Ok image, []) _ _ _ eq_refl). cbn beta.
  rewrite Hfields. cbn [lift].
  rewrite (bind_ok_eq (Ok image_fields, []) _ _ _ eq_refl). cbn beta.
  rewrite Hurl. cbn [lift].
  rewrite (bind_ok_eq (Ok url, []) _ _ _ eq_refl). cbn beta. cbn [app fst snd].
  rewrite render_eq. split; [|split].
  - rewrite bind_pair_trace. cbn [app].
    rewrite rendered_cons_entry, rendered_cons_render. f_equal.
    destruct (renderer self _) as [html|]; [|done].
    apply rendered_no_render.
    apply bind_trace_Forall; [constructor|]. intros cls _.
    apply bind_trace_Forall; [constructor|]. intros img _.
    apply bind_trace_Forall; [apply get_cta_data_trace_not_render|].
    intros; constructor.
  - intros e ->. done.
  - intros d H. cbn [fst] in H. apply bind_ok_iff in H as (html & Hhtml & H).
    cbn [fst] in Hhtml. exists html. split; [done|].
    inv_ok H. by subst d.
Qed.

Lemma hero_renders_unconditionally_witness :
  let bare := {| entry_id := "h"; entry_content_type := "componentHero";
                 entry_fields := [("heading", VStr "No body");
                                  ("image", demo_image "pic")] |} in
  let self := {| client := Some [bare]; renderer := demo_renderer |} in
  rendered (get_hero_data self "h").2 = [VNone] ∧
  get_hero_data self "h" = (Raise TypeError, [EvEntry "h" None; EvRender VNone]).
Proof.
  intros bare self.
  destruct (hero_renders_unconditionally self "h" bare (demo_image "pic") _ _
              eq_refl eq_refl eq_refl eq_refl) as (Hr & He & _).
  split; [exact Hr|]. by apply He.
Defined.

(** X18.  A card and a callout render their body exactly when it is
    truthy.  A truthy body is handed to the renderer once, and the
    output's [body] is what the renderer returned; any falsy body (absent,
    [None], an empty string, list or mapping) is not rendered and gives
    the empty string. *)
Theorem body_rendered_iff_truthy
    (asset_url : dict → Z → Z → string → string → result string)
    (self : ContentfulPage) :
  (∀ card_id aspect_ratio card d,
     (get_entry_by_id self card_id).1 = Ok card →
     (get_card_data asset_url self card_id aspect_ratio).1 = Ok d →
     let body := dict_get (entry_fields card) "body" in
     if py_truthy body then
       rendered (get_card_data asset_url self card_id aspect_ratio).2 = [body] ∧
       ∃ html, renderer self body = Ok html ∧
               dict_lookup d "body" = Some (VStr html)
     else
       rendered (get_card_data asset_url self card_id aspect_ratio).2 = [] ∧
       dict_lookup d "body" = Some (VStr "")) ∧
  (∀ callout_id config content_id content d,
     (get_entry_by_id self callout_id).1 = Ok config →
     val_id (dict_get (entry_fields config) "component_callout") = Ok content_id →
     (get_entry_by_id self content_id).1 = Ok content →
     (get_callout_data self callout_id).1 = Ok d →
     let body := dict_get (entry_fields content) "body" in
     if py_truthy body then
       rendered (get_callout_data self callout_id).2 = [body] ∧
       ∃ html, renderer self body = Ok html ∧
               dict_lookup d "body" = Some (VStr html)
     else
       rendered (get_callout_data self callout_id).2 = [] ∧
       dict_lookup d "body" = Some (VStr "")).
Proof.
  split.
  - intros card_id aspect_ratio card d Hcard Hd body.
    assert (rendered (get_card_data asset_url self card_id aspect_ratio).2
            = rendered (render_body_if_present self (entry_fields card)).2) as Htrace.
    { unfold get_card_data.
      rewrite (bind_ok_eq _ _ _ _ (get_entry_by_id_eq _ _ _ Hcard)). cbn [snd app].
      rewrite rendered_cons_entry.
      rewrite (surjective_pairing (render_body_if_present self (entry_fields card))).
      rewrite bind_pair_trace, rendered_app.
      rewrite (rendered_no_render (match _ with Ok _ => _ | Raise _ => _ end));
        [by rewrite app_nil_r|].
      destruct (render_body_if_present _ _).1; [|constructor].
      repeat (apply bind_trace_Forall; [constructor|]; intros ? _). constructor. }
    apply get_card_data_ok in Hd
      as (card' & html & url & cls & Hc' & Hbody & _ & _ & ->).
    assert (card' = card) as -> by congruence.
    rewrite Htrace. clear Htrace. subst body.
    rewrite render_body_if_present_eq in *.
    destruct (py_truthy _); cbn [fst snd] in *.
    + split; [done|]. by exists html.
    + split; [done|]. by injection Hbody as <-.
  - intros callout_id config content_id content d Hconfig Hid Hcontent Hd body.
    assert (rendered (get_callout_data self callout_id).2
            = rendered (render_body_if_present self (entry_fields content)).2)
      as Htrace.
    { unfold get_callout_data.
      rewrite (bind_ok_eq _ _ _ _ (get_entry_by_id_eq _ _ _ Hconfig)). cbn [snd].
      rewrite Hid. cbn [lift].
      rewrite (bind_ok_eq (Ok content_id, []) _ _ _ eq_refl). cbn [snd app].
      rewrite (bind_ok_eq _ _ _ _ (get_entry_by_id_eq _ _ _ Hcontent)).
      cbn [snd app]. rewrite !rendered_cons_entry.
      rewrite (surjective_pairing (render_body_if_present self (entry_fields content))).
      rewrite bind_pair_trace, rendered_app.
      rewrite (rendered_no_render (match _ with Ok _ => _ | Raise _ => _ end));
        [by rewrite app_nil_r|].
      destruct (render_body_if_present _ _).1; [|constructor].
      apply bind_trace_Forall; [constructor|]. intros cls _.
      apply bind_trace_Forall; [apply get_cta_data_trace_not_render|].
      intros; constructor. }
    apply get_callout_data_ok in Hd
      as (config' & id' & content' & html & cls & cta
          & H1 & H2 & H3 & Hbody & _ & _ & ->).
    assert (config' = config) as -> by congruence.
    assert (id' = content_id) as -> by congruence.
    assert (content' = content) as -> by congruence.
    rewrite Htrace. clear Htrace. subst body.
    rewrite render_body_if_present_eq in *.
    destruct (py_truthy _); cbn [fst snd] in *.
    + split; [done|]. by exists html.
    + split; [done|]. by injection Hbody as <-.
Qed.

Lemma body_rendered_iff_truthy_witness :
  rendered (get_card_data demo_asset_url demo_page "card1" (VStr "3:2")).2
    = [demo_doc "One"] ∧
  rendered (get_card_data demo_asset_url demo_page "card3" (VStr "3:2")).2 = [] ∧
  rendered (get_callout_data demo_page "callout1").2 = [].
Proof.
  destruct (body_rendered_iff_truthy demo_asset_url demo_page) as [Hcard Hcallout].
  split; [|split].
  - exact (proj1 (Hcard "card1" (VStr "3:2") (demo_card "card1" [("body", demo_doc "One")])
                    _ eq_refl eq_refl)).
  - exact (proj1 (Hcard "card3" (VStr "3:2") (demo_card "card3" [("body", VNone)])
                    _ eq_refl eq_refl)).
  - exact (proj1 (Hcallout "callout1"
                    {| entry_id := "callout1"; entry_content_type := "layoutCallout";
                       entry_fields := [("theme", VStr "Light");
                                        ("component_callout", VLink "calloutc")] |}
                    "calloutc"
                    {| entry_id := "calloutc"; entry_content_type := "componentCallout";
                       entry_fields := [("heading", VStr "Join");
                                        ("product_icon", VStr "Firefox Beta")] |}
                    _ eq_refl eq_refl eq_refl eq_refl)).
Defined.

(** ** Listing the pages *)

Lemma list_comp_trace {A B} (f : A → M B) (l : list A) (out : list B) :
  (list_comp f l).1 = Ok out →
  (list_comp f l).2 = concat ((λ x, (f x).2) <$> l).
Proof.
  revert out. induction l as [|x l IH]; intros out; cbn [list_comp]; [done|].
  intros H. apply bind_ok_iff in H as (y & Hy & H).
  rewrite (bind_trace_ok _ _ _ Hy).
  apply bind_ok_iff in H as (ys & Hys & H).
  rewrite (bind_trace_ok _ _ _ Hys), (IH _ Hys). simpl. by rewrite app_nil_r.
Qed.

(** X19.  The page listing is all or nothing.  It lists the
    [pageVersatile] entries with one request and then loads every one of
    them with a request of its own, in order; when it returns there is
    one page data per listed entry, and when any listed page cannot be
    loaded or summarised the whole listing raises. *)
Theorem get_all_page_data_all_or_nothing (self : ContentfulPage)
    (space : list Entry) :
  client self = Some space →
  let pages := filter (λ e, entry_content_type e = "pageVersatile") space in
  (∀ out, (get_all_page_data self).1 = Ok out →
     length out = length pages ∧
     (get_all_page_data self).2 =
       EvEntries "pageVersatile"
       :: ((λ p, EvEntry (entry_id p) (Some 5%Z)) <$> pages)) ∧
  (Exists (λ p, raises (get_page_data self (entry_id p)).1) pages →
   raises (get_all_page_data self).1).
Proof.
  intros Hclient pages. unfold get_all_page_data, client_entries.
  rewrite Hclient.
  assert (emit (EvEntries "pageVersatile") ≫= (λ _ : (), mret pages)
          = (Ok pages, [EvEntries "pageVersatile"])) as Hlist by done.
  fold pages. rewrite (bind_ok_eq _ _ _ _ Hlist). cbn [fst snd]. split.
  - intros out Hout. split.
    + apply list_comp_ok in Hout. symmetry. by eapply Forall2_length.
    + rewrite (list_comp_trace _ _ _ Hout). cbn [app]. f_equal.
      clear Hout Hlist. induction pages as [|p ps IH]; [done|].
      cbn [fmap list_fmap concat].
      rewrite (get_page_data_one_request_aux self p space Hclient).
      simpl. f_equal. exact IH.
  - intros Hex.
    destruct (list_comp _ pages).1 as [out|e] eqn:Hout; [|done].
    apply list_comp_ok in Hout.
    apply Exists_exists in Hex as (p & Hp & Hraise).
    apply list_elem_of_lookup in Hp as [i Hi].
    destruct (Forall2_lookup_l _ _ _ _ _ Hout Hi) as (d & _ & Hd).
    by rewrite Hd in Hraise.
Qed.

Lemma get_all_page_data_all_or_nothing_witness :
  let broken := {| entry_id := "draft"; entry_content_type := "pageVersatile";
                   entry_fields := [("preview_blurb", VStr "No title yet")] |} in
  (∃ out, (get_all_page_data demo_page).1 = Ok out ∧
          length out = 1%nat ∧
          (get_all_page_data demo_page).2
            = [EvEntries "pageVersatile"; EvEntry "vers" (Some 5%Z)]) ∧
  raises (get_all_page_data
            {| client := Some (demo_space ++ [broken]);
               renderer := demo_renderer |}).1.
Proof.
  intros broken. split.
  - eexists. split; [vm_compute; reflexivity|].
    apply (get_all_page_data_all_or_nothing demo_page demo_space eq_refl).
    vm_compute; reflexivity.
  - apply (get_all_page_data_all_or_nothing
             {| client := Some (demo_space ++ [broken]); renderer := demo_renderer |}
             (demo_space ++ [broken]) eq_refl).
    apply Exists_exists. exists broken. split; [|exact I].
    apply list_elem_of_filter. split; [reflexivity|].
    apply elem_of_app. right. apply list_elem_of_here.
Defined.

(** ** The 16:9 height, exactly *)

Lemma digits2_pos_upper (w : positive) :
  (Z.pos w < 2 ^ Z.pos (digits2_pos w))%Z.
Proof.
  induction w as [w IH|w IH|]; cbn [digits2_pos]; [| |done].
  - rewrite Pos2Z.inj_succ, Z.pow_succ_r by lia. lia.
  - rewrite Pos2Z.inj_succ, Z.pow_succ_r by lia. lia.
Qed.

Lemma digits2_pos_unique (w : positive) (d : Z) :
  (2 ^ (d - 1) <= Z.pos w < 2 ^ d)%Z → (0 < d)%Z → Z.pos (digits2_pos w) = d.
Proof.
  intros [Hlo Hhi] Hd.
  pose proof (digits2_pos_lower w) as Hl. pose proof (digits2_pos_upper w) as Hu.
  destruct (Z.lt_trichotomy (Z.pos (digits2_pos w)) d) as [Hlt|[->|Hgt]]; [|done|].
  - assert (2 ^ Z.pos (digits2_pos w) <= 2 ^ (d - 1))%Z
      by (apply Z.pow_le_mono_r; lia). lia.
  - assert (2 ^ d <= 2 ^ (Z.pos (digits2_pos w) - 1))%Z
      by (apply Z.pow_le_mono_r; lia). lia.
Qed.

Lemma iter_pos_shr_1_xO_53 (m : positive) :
  SpecFloat.iter_pos shr_1 53
    {| shr_m := Z.pos (Pos.iter xO m 53); shr_r := false; shr_s := false |}
  = {| shr_m := Z.pos m; shr_r := false; shr_s := false |}.
Proof. reflexivity. Qed.

(** Rounding a mantissa whose low [n] bits are zero, [n = 52] or [53]. *)
Lemma binary_round_aux_trailing_zeros s (q n : positive) (e : Z) :
  n = 52%positive ∨ n = 53%positive →
  digits2_pos q = 53%positive → (-1074 <= e)%Z → (e + Z.pos n <= 971)%Z →
  binary_round_aux prec emax s (Z.pos (Pos.iter xO q n)) e loc_Exact
  = S754_finite s q (e + Z.pos n).
Proof.
  intros Hn Hd He1 He2. unfold binary_round_aux.
  assert (shr_fexp prec emax (Z.pos (Pos.iter xO q n)) e loc_Exact
          = ({| shr_m := Z.pos q; shr_r := false; shr_s := false |}, e + Z.pos n)%Z) as ->.
  { unfold shr_fexp, fexp, emin, prec, emax, Zdigits2.
    rewrite digits2_pos_iter_xO, Hd.
    replace (Z.max (Z.pos (53 + n) + e - 53) (3 - 1024 - 53) - e)%Z
      with (Z.pos n) by lia.
    cbn [shr_record_of_loc shr].
    destruct Hn as [-> | ->];
      [by rewrite iter_pos_shr_1_xO|by rewrite iter_pos_shr_1_xO_53]. }
  cbn [shr_m loc_of_shr_record round_nearest_even].
  rewrite shr_fexp_canonical by (done || lia).
  cbn [shr_m]. unfold prec, emax.
  destruct (Z.leb_spec (e + Z.pos n) (1024 - 53)); [done|lia].
Qed.

Lemma round_half_even_shift_16 (a j : Z) :
  (0 <= a)%Z → (0 <= j)%Z →
  round_half_even_shift (a * 2 ^ j) (j + 4) = round_half_even_div a 16.
Proof.
  intros Ha Hj. unfold round_half_even_shift, round_half_even_div.
  assert (0 < 2 ^ j)%Z as Hpos by lia.
  assert (2 ^ (j + 4) = 16 * 2 ^ j)%Z as Hpow.
  { rewrite Z.pow_add_r by lia. change (2 ^ 4)%Z with 16%Z. lia. }
  rewrite Z.shiftr_div_pow2, !Z.shiftl_mul_pow2 by lia. rewrite Hpow.
  rewrite Z.div_mul_cancel_r by lia.
  replace (2 * (a * 2 ^ j - a / 16 * (16 * 2 ^ j)))%Z
    with ((2 * (a mod 16)) * 2 ^ j)%Z.
  2: { rewrite (Z.mod_eq a 16) by lia. lia. }
  replace (1 * (16 * 2 ^ j))%Z with (16 * 2 ^ j)%Z by lia.
  destruct (Z.compare_spec (2 * (a mod 16) * 2 ^ j) (16 * 2 ^ j)),
    (Z.compare_spec (2 * (a mod 16)) 16); try done; nia.
Qed.

(** Multiplying the double of an integer below [2^49] by 0.5625 is
    exact. *)
Lemma SFmul_9_16 (m : positive) (k w : Z) :
  digits2_pos m = 53%positive → (4 <= k <= 52)%Z → (0 < w)%Z →
  Z.pos m = (w * 2 ^ k)%Z →
  ∃ q j, SFmul prec emax (S754_finite false m (- k)) (float_lit 5625 10000)
           = S754_finite false q (- (j + 4))
         ∧ (0 <= j)%Z ∧ Z.pos q = (9 * w * 2 ^ j)%Z.
Proof.
  intros Hd Hk Hw Hm. rewrite float_lit_0_5625. unfold SFmul. cbn [xorb].
  pose proof (digits2_pos_lower m) as Hlo. pose proof (digits2_pos_upper m) as Hhi.
  rewrite Hd in Hlo, Hhi.
  change (2 ^ (53 - 1))%Z with 4503599627370496%Z in Hlo.
  change (2 ^ 53)%Z with 9007199254740992%Z in Hhi.
  destruct (Z.lt_ge_cases (Z.pos m * 9) 72057594037927936) as [Hcase|Hcase].
  - (* the product has 105 digits *)
    set (j := (k - 3)%Z). set (Y := (w * 2 ^ j)%Z).
    assert (Z.pos m = Y * 8)%Z as HmY.
    { rewrite Hm. unfold Y, j. replace k with ((k - 3) + 3)%Z at 1 by lia.
      rewrite Z.pow_add_r by lia. change (2 ^ 3)%Z with 8%Z. lia. }
    assert (0 < 9 * Y)%Z as HY by lia.
    exists (Z.to_pos (9 * Y)), j.
    assert (Z.pos (Z.to_pos (9 * Y)) = 9 * Y)%Z as Hq by (apply Z2Pos.id; lia).
    assert ((m * 5066549580791808)%positive = Pos.iter xO (Z.to_pos (9 * Y)) 52) as ->.
    { apply Pos2Z.inj. rewrite Zpos_iter_xO, Hq, Pos2Z.inj_mul, HmY.
      change (2 ^ 52)%Z with 4503599627370496%Z. lia. }
    rewrite binary_round_aux_trailing_zeros; [|by left| |lia|lia].
    + split; [f_equal; unfold j; lia|]. split; [unfold j; lia|]. rewrite Hq. unfold Y. lia.
    + apply Pos2Z.inj. apply digits2_pos_unique; [|done]. rewrite Hq.
      change (2 ^ (53 - 1))%Z with 4503599627370496%Z.
      change (2 ^ 53)%Z with 9007199254740992%Z. lia.
  - (* the product has 106 digits *)
    set (j := (k - 4)%Z). set (Y := (w * 2 ^ j)%Z).
    assert (Z.pos m = Y * 16)%Z as HmY.
    { rewrite Hm. unfold Y, j. replace k with ((k - 4) + 4)%Z at 1 by lia.
      rewrite Z.pow_add_r by lia. change (2 ^ 4)%Z with 16%Z. lia. }
    assert (0 < 9 * Y)%Z as HY by lia.
    exists (Z.to_pos (9 * Y)), j.
    assert (Z.pos (Z.to_pos (9 * Y)) = 9 * Y)%Z as Hq by (apply Z2Pos.id; lia).
    assert ((m * 5066549580791808)%positive = Pos.iter xO (Z.to_pos (9 * Y)) 53) as ->.
    { apply Pos2Z.inj. rewrite Zpos_iter_xO, Hq, Pos2Z.inj_mul, HmY.
      change (2 ^ 53)%Z with 9007199254740992%Z. lia. }
    rewrite binary_round_aux_trailing_zeros; [|by right| |lia|lia].
    + split; [f_equal; unfold j; lia|]. split; [unfold j; lia|]. rewrite Hq. unfold Y. lia.
    + apply Pos2Z.inj. apply digits2_pos_unique; [|done]. rewrite Hq.
      change (2 ^ (53 - 1))%Z with 4503599627370496%Z.
      change (2 ^ 53)%Z with 9007199254740992%Z. lia.
Qed.

Lemma get_height_16_9_round_mul (width : Z) :
  _get_height width (VStr "16:9") = round_mul width (NFloat (float_lit 5625 10000)).
Proof. reflexivity. Qed.

(** X20.  For every width from 0 up to [2^49] the binary64 computation
    of the [16:9] height is exact: the height is [9 * width / 16] rounded
    to the nearest integer, ties to even.  So it is within half a pixel
    of the true ratio and never exceeds the width. *)
Theorem get_height_16_9_exact (width : Z) :
  (0 <= width < 2 ^ 49)%Z →
  ∃ h, _get_height width (VStr "16:9") = Ok h ∧
       h = round_half_even_div (9 * width) 16 ∧
       (-8 <= 16 * h - 9 * width <= 8)%Z ∧ (0 <= h <= width)%Z.
Proof.
  intros Hw.
  assert (_get_height width (VStr "16:9") = Ok (round_half_even_div (9 * width) 16))
    as Hh.
  { rewrite get_height_16_9_round_mul.
    unfold round_mul, py_mul, int_to_float, SF_of_Z, binary_normalize.
    destruct width as [|w|w]; [done| |lia].
    destruct (binary_round_small false w) as (m & k & -> & Hd & Hk & Hm).
    { change (2 ^ 53)%Z with 9007199254740992%Z.
      change (2 ^ 49)%Z with 562949953421312%Z in Hw. lia. }
    cbn [mbind result_mbind result_bind].
    assert (4 <= k)%Z as Hk4.
    { destruct (Z.le_gt_cases 4 k) as [|Hlt]; [done|exfalso].
      pose proof (digits2_pos_lower m) as Hlo. rewrite Hd in Hlo.
      change (2 ^ (53 - 1))%Z with 4503599627370496%Z in Hlo.
      change (2 ^ 49)%Z with 562949953421312%Z in Hw.
      assert (2 ^ k <= 2 ^ 3)%Z by (apply Z.pow_le_mono_r; lia).
      change (2 ^ 3)%Z with 8%Z in *. nia. }
    destruct (SFmul_9_16 m k (Z.pos w) Hd ltac:(lia) ltac:(lia) Hm)
      as (q & j & -> & Hj & Hq).
    unfold py_round. destruct (Z.leb_spec 0 (- (j + 4))); [lia|].
    rewrite Z.opp_involutive, Hq, round_half_even_shift_16 by lia. done. }
  eexists. split; [exact Hh|]. split; [done|].
  unfold round_half_even_div.
  pose proof (Z.div_mod (9 * width) 16 ltac:(lia)).
  pose proof (Z.mod_pos_bound (9 * width) 16 ltac:(lia)).
  destruct (Z.compare_spec (2 * ((9 * width) mod 16)) 16);
    [destruct (Z.even _)| |]; lia.
Qed.

Lemma get_height_16_9_exact_witness :
  ∃ h, _get_height 800 (VStr "16:9") = Ok h ∧
       h = round_half_even_div (9 * 800) 16 ∧
       (-8 <= 16 * h - 9 * 800 <= 8)%Z ∧ (0 <= h <= 800)%Z.
Proof. apply (get_height_16_9_exact 800). split; [discriminate|reflexivity]. Defined.
